(** * Bernoulli approximation of a Poisson process: the two simulation scripts

    A shallow embedding of [simulate_poisson_approx_purepy.py] (scalar draws
    from [random]) and [simulate_poisson_approx.py] (vectorised NumPy), and
    the properties of the realization builder, the interarrival extractor,
    the statistics summarizer and the JSON summary record.

    Conventions of the embedding.
    - The scripts are read twice.  In the modules [PurePy] and [NumPy] a
      Python [float] is an exact rational ([Q]): no rounding, no overflow,
      numeric equality is [Qeq] ([==]).  In the module [F64] it is an IEEE
      754 binary64 number, every operation rounded, and a conversion or a
      power that leaves the float range raises OverflowError.  Properties
      that hold of the rounded program as well are proved on the exact
      reading; where the two readings part, the binary64 one decides.
    - A Python [int] is a [Z].
    - The pseudo-random generator is a state: the sequence of uniform draws
      it will deliver and a cursor into it.  Which sequence a seed selects
      (the Mersenne Twister of the runtime) is a parameter.
    - A Python exception ends the run: computations live in a state and
      error monad.
    - [list.sort] and [ndarray.sort] are the stable ascending sort. *)

From Stdlib Require Import String ZArith QArith List Sorted Lia Lqa.
From Stdlib Require Import PrimFloat FloatOps SpecFloat.
Import ListNotations.

Local Open Scope Z_scope.

(** ** Exceptions and results *)

Inductive PyError : Type :=
| ZeroDivisionError
| IndexError
| ValueError
| OverflowError.

Inductive Result (A : Type) : Type :=
| Ok (a : A)
| Raise (e : PyError).

Arguments Ok {A} a.
Arguments Raise {A} e.

Definition rbind {A B : Type} (c : Result A) (k : A -> Result B) : Result B :=
  match c with
  | Ok a => k a
  | Raise e => Raise e
  end.

Notation "x <~ c ;; k" := (rbind c (fun x => k))
  (at level 61, c at next level, right associativity).

(** ** The random stream *)

Record Rng : Type := mkRng {
  draws : nat -> Q;   (* the uniform values the generator will deliver *)
  cursor : nat        (* how many of them have been consumed *)
}.

(** Every value the generator delivers lies in [0, 1). *)
Definition unit_draws (g : Rng) : Prop :=
  forall k : nat, (0 <= draws g k /\ draws g k < 1)%Q.

Definition advance (g : Rng) (k : nat) : Rng :=
  mkRng (draws g) (cursor g + k).

(** The next [k] values the generator will deliver, in order. *)
Definition upcoming (g : Rng) (k : nat) : list Q :=
  map (fun j => draws g (cursor g + j)%nat) (seq 0 k).

(** ** The state and error monad of a run *)

Definition M (A : Type) : Type := Rng -> Result (A * Rng).

Definition ret {A : Type} (a : A) : M A := fun g => Ok (a, g).

Definition bind {A B : Type} (c : M A) (k : A -> M B) : M B :=
  fun g =>
    match c g with
    | Ok (a, g') => k a g'
    | Raise e => Raise e
    end.

Notation "x <- c ;; k" := (bind c (fun x => k))
  (at level 61, c at next level, right associativity).

Definition lift {A : Type} (c : Result A) : M A :=
  fun g =>
    match c with
    | Ok a => Ok (a, g)
    | Raise e => Raise e
    end.

(** [random.random()]: the next uniform draw. *)
Definition random : M Q :=
  fun g => Ok (draws g (cursor g), advance g 1).

(** [for x in xs: s = body(x, s)] *)
Fixpoint for_each {A S : Type} (xs : list A) (body : A -> S -> M S) (s : S)
  : M S :=
  match xs with
  | [] => ret s
  | x :: xs' => s' <- body x s ;; for_each xs' body s'
  end.

(** [[f(x) for x in xs]] with an effectful [f], evaluated left to right. *)
Fixpoint map_M {A B : Type} (f : A -> M B) (xs : list A) : M (list B) :=
  match xs with
  | [] => ret []
  | x :: xs' => y <- f x ;; ys <- map_M f xs' ;; ret (y :: ys)
  end.

(** The same comprehension over a pure, fallible [f]. *)
Fixpoint map_R {A B : Type} (f : A -> Result B) (xs : list A)
  : Result (list B) :=
  match xs with
  | [] => Ok []
  | x :: xs' => y <~ f x ;; ys <~ map_R f xs' ;; Ok (y :: ys)
  end.

(** ** Python primitives *)

(** [range(a, b)] and [range(n)]. *)
Definition range2 (a b : Z) : list Z :=
  map (fun k => a + Z.of_nat k) (seq 0 (Z.to_nat (b - a))).

Definition range (n : Z) : list Z := range2 0 n.

Definition len {A : Type} (l : list A) : Z := Z.of_nat (length l).

(** [x < y] on floats. *)
Definition Qltb (x y : Q) : bool :=
  Qnum x * QDen y <? Qnum y * QDen x.

(** [a / b] on numbers: true division, which raises on a zero divisor. *)
Definition truediv (a b : Q) : Result Q :=
  if Qeq_bool b 0 then Raise ZeroDivisionError else Ok (a / b)%Q.

(** [l[i]]: a negative index counts from the end; out of range raises. *)
Definition getitem (l : list Q) (i : Z) : Result Q :=
  let j := if i <? 0 then i + len l else i in
  if j <? 0 then Raise IndexError
  else match nth_error l (Z.to_nat j) with
       | Some x => Ok x
       | None => Raise IndexError
       end.

(** [sum(xs)] over ints and over floats: a left fold from 0. *)
Definition sum_int (xs : list Z) : Z := fold_left Z.add xs 0.
Definition sum_float (xs : list Q) : Q := fold_left Qplus xs 0%Q.

(** The truth value of a list: non-empty. *)
Definition truthy {A : Type} (l : list A) : bool :=
  match l with
  | [] => false
  | _ :: _ => true
  end.

(** Stable ascending sort ([list.sort], [ndarray.sort]). *)
Fixpoint insert_sorted (x : Q) (l : list Q) : list Q :=
  match l with
  | [] => [x]
  | y :: l' => if Qle_bool x y then x :: l else y :: insert_sorted x l'
  end.

Fixpoint sort (l : list Q) : list Q :=
  match l with
  | [] => []
  | x :: l' => insert_sorted x (sort l')
  end.

(** ** Data model *)

(** The fixed configuration at the head of both scripts. *)
Record ParameterSet : Type := mkParameterSet {
  ps_T : Q;
  ps_lam : Q;
  ps_n : Z;
  ps_trials : Z;
  ps_seed : Z
}.

(** [T = 1.0], [lam = 3.5], [n = 5000], [trials = 20000], [seed = 12345]. *)
Definition script_parameters : ParameterSet :=
  mkParameterSet 1 (35 # 10) 5000 20000 12345.

(** What the single realization leaves behind: the hit indices, the sorted
    event times and the gaps between them. *)
Record Realization : Type := mkRealization {
  indices : list Z;
  times : list Q;
  interarrivals : list Q
}.

(** A float as a NumPy reduction can return it. *)
Inductive pyfloat : Type :=
| Finite (q : Q)
| NaN
| Infinity.

(** The values stored in the summary dictionary. *)
Inductive pyval : Type :=
| PyInt (z : Z)
| PyFloat (x : pyfloat)
| PyNone.

(** A [dict] literal, in insertion order (the order [json.dump] writes). *)
Definition pydict : Type := list (string * pyval).

Fixpoint lookup (key : string) (d : pydict) : option pyval :=
  match d with
  | [] => None
  | (k, v) :: d' => if String.eqb key k then Some v else lookup key d'
  end.

Definition keys (d : pydict) : list string := map fst d.

(** ** [simulate_poisson_approx_purepy.py]

    The exact reading: the float operations of lines 13, 40, 42 and 48-57
    neither round nor overflow here.  The same lines with rounding and the
    OverflowError of an [int] conversion or a [**] are [F64.place_events],
    [F64.interarrival_stats] and [F64.main] below. *)

Module PurePy.

(** Lines 19-30: [trials] rounds of [n] Bernoulli draws. *)
Definition simulate_counts (trials n : Z) (p : Q) : M (list Z) :=
  for_each (range trials)
    (fun _ counts =>
       c <- for_each (range n)
              (fun _ c =>
                 u <- random ;;
                 ret (if Qltb u p then c + 1 else c))
              0 ;;
       ret (counts ++ [c]))
    [].

(** Lines 33-37: the subintervals whose draw falls below [p]. *)
Definition hit_indices (n : Z) (p : Q) : M (list Z) :=
  for_each (range n)
    (fun i indices =>
       u <- random ;;
       ret (if Qltb u p then indices ++ [i] else indices))
    [].

(** Line 40: [[(i + random.random()) * (T/n) for i in indices]]. *)
Definition place_events (idx : list Z) (n : Z) (T : Q) : M (list Q) :=
  map_M (fun i =>
           u <- random ;;
           w <- lift (truediv T (inject_Z n)) ;;
           ret ((inject_Z i + u) * w)%Q)
        idx.

(** Line 42:
    [[times[0]] + [times[i] - times[i-1] for i in range(1, len(times))]]. *)
Definition gaps (ts : list Q) : Result (list Q) :=
  t0 <~ getitem ts 0 ;;
  rest <~ map_R (fun i =>
                   a <~ getitem ts i ;;
                   b <~ getitem ts (i - 1) ;;
                   Ok (a - b)%Q)
                (range2 1 (len ts)) ;;
  Ok ([t0] ++ rest).

(** Lines 33-45: the realization builder and the interarrival extractor. *)
Definition realization (n : Z) (p T : Q) : M Realization :=
  idx <- hit_indices n p ;;
  if truthy idx then
    ts <- place_events idx n T ;;
    let ts := sort ts in
    ia <- lift (gaps ts) ;;
    ret (mkRealization idx ts ia)
  else
    ret (mkRealization idx [] []).

(** Lines 48-49. *)
Definition mean_of_counts (counts : list Z) : Result Q :=
  truediv (inject_Z (sum_int counts)) (inject_Z (len counts)).

Definition var_of_counts (counts : list Z) (mean_count : Q) : Result Q :=
  truediv (sum_float (map (fun x => (inject_Z x - mean_count) ^ 2)%Q counts))
          (inject_Z (len counts)).

(** Lines 52-57: the interarrival statistics, [None] when there is no gap. *)
Definition interarrival_stats (ia : list Q) : Result (option Q * option Q) :=
  if truthy ia then
    mean_ia <~ truediv (sum_float ia) (inject_Z (len ia)) ;;
    var_ia <~ truediv (sum_float (map (fun x => (x - mean_ia) ^ 2)%Q ia))
                      (inject_Z (len ia)) ;;
    Ok (Some mean_ia, Some var_ia)
  else
    Ok (None, None).

(** Lines 76-87: the dictionary handed to [json.dump]. *)
Definition summary (T lam : Q) (n : Z) (p : Q) (trials : Z)
    (mean_count var_count : Q) (ts : list Q) : pydict :=
  [ ("T", PyFloat (Finite T));
    ("lambda", PyFloat (Finite lam));
    ("n", PyInt n);
    ("p", PyFloat (Finite p));
    ("trials", PyInt trials);
    ("counts_mean", PyFloat (Finite mean_count));
    ("counts_var", PyFloat (Finite var_count));
    ("theor_mean", PyFloat (Finite (lam * T)));
    ("theor_var", PyFloat (Finite (lam * T)));
    ("realization_event_count", PyInt (len ts)) ]%string.

(** Everything a run computes. *)
Record Run : Type := mkRun {
  p : Q;
  counts : list Z;
  event : Realization;
  mean_count : Q;
  var_count : Q;
  mean_ia : option Q;
  var_ia : option Q;
  out : pydict
}.

Section Script.

(** The draw sequence that [random.seed(s)] selects. *)
Variable seeded : Z -> nat -> Q.

(** Line 17: [random.seed(seed)] replaces the generator state. *)
Definition seed_generator (s : Z) : M unit :=
  fun _ => Ok (tt, mkRng (seeded s) 0).

(** The script from top to bottom, up to the summary dictionary. *)
Definition main (ps : ParameterSet) : M Run :=
  let T := ps_T ps in
  let lam := ps_lam ps in
  let n := ps_n ps in
  let trials := ps_trials ps in
  p <- lift (truediv (lam * T) (inject_Z n)) ;;
  _ <- seed_generator (ps_seed ps) ;;
  counts <- simulate_counts trials n p ;;
  ev <- realization n p T ;;
  mean_count <- lift (mean_of_counts counts) ;;
  var_count <- lift (var_of_counts counts mean_count) ;;
  ia_stats <- lift (interarrival_stats (interarrivals ev)) ;;
  ret (mkRun p counts ev mean_count var_count
             (fst ia_stats) (snd ia_stats)
             (summary T lam n p trials mean_count var_count (times ev))).

End Script.

End PurePy.

(** ** [simulate_poisson_approx.py]

    The exact reading again: [add] and [scale] neither round nor overflow.
    Their rounded counterparts are [F64.add] and [F64.scale] below. *)

Module NumPy.

(** [np.random.rand(k)]: the next [k] uniform draws, as an array. *)
Fixpoint rand_fill (k : nat) : M (list Q) :=
  match k with
  | O => ret []
  | S k' => u <- random ;; us <- rand_fill k' ;; ret (u :: us)
  end.

Definition rand (k : Z) : M (list Q) :=
  if k <? 0 then lift (Raise ValueError) else rand_fill (Z.to_nat k).

(** [a < p], elementwise. *)
Definition less (a : list Q) (p : Q) : list bool :=
  map (fun u => Qltb u p) a.

(** [np.nonzero(b)[0]]: the positions of the true entries, ascending. *)
Fixpoint nonzero_from (i : Z) (b : list bool) : list Z :=
  match b with
  | [] => []
  | true :: b' => i :: nonzero_from (i + 1) b'
  | false :: b' => nonzero_from (i + 1) b'
  end.

Definition nonzero (b : list bool) : list Z := nonzero_from 0 b.

(** [idx + u]: an int array plus a float array of the same shape. *)
Definition add (idx : list Z) (u : list Q) : list Q :=
  map (fun iu => (inject_Z (fst iu) + snd iu)%Q) (combine idx u).

(** [a * w]: an array times a scalar. *)
Definition scale (a : list Q) (w : Q) : list Q :=
  map (fun x => (x * w)%Q) a.

(** [np.diff(a)]: [a[i+1] - a[i]]. *)
Fixpoint diff (a : list Q) : list Q :=
  match a with
  | [] => []
  | x :: a' =>
      match a' with
      | [] => []
      | y :: _ => (y - x)%Q :: diff a'
      end
  end.

(** [a.mean()]: not-a-number on an empty array. *)
Definition mean (a : list Q) : pyfloat :=
  match a with
  | [] => NaN
  | _ :: _ => Finite (sum_float a / inject_Z (len a))
  end.

(** [a.var(ddof=d)]: the squared deviations from the mean, summed, over
    [max(N - d, 0)]; a zero divisor gives a non-finite result. *)
Definition var (d : Z) (a : list Q) : pyfloat :=
  let m := match mean a with Finite m => m | _ => 0%Q end in
  let x := sum_float (map (fun v => (v - m) ^ 2)%Q a) in
  let rcount := Z.max (len a - d) 0 in
  if rcount =? 0 then (if Qeq_bool x 0 then NaN else Infinity)
  else Finite (x / inject_Z rcount).

(** Lines 27-36: the realization builder and the interarrival extractor. *)
Definition realization (n : Z) (p T : Q) : M Realization :=
  u <- rand n ;;
  let bernoulli := less u p in
  let idx := nonzero bernoulli in
  if len idx >? 0 then
    jitter <- rand (len idx) ;;
    w <- lift (truediv T (inject_Z n)) ;;
    let ts := sort (scale (add idx jitter) w) in
    ret (mkRealization idx ts (diff ([0%Q] ++ ts)))
  else
    ret (mkRealization idx [] []).

(** Lines 46-52. *)
Definition interarrival_stats (ia : list Q)
  : option pyfloat * option pyfloat :=
  if len ia >? 0 then (Some (mean ia), Some (var 0 ia))
  else (None, None).

(** Lines 77-88: the dictionary handed to [json.dump]. *)
Definition summary (T lam : Q) (n : Z) (p : Q) (trials : Z)
    (mean_count var_count : pyfloat) (ts : list Q) : pydict :=
  [ ("T", PyFloat (Finite T));
    ("lambda", PyFloat (Finite lam));
    ("n", PyInt n);
    ("p", PyFloat (Finite p));
    ("trials", PyInt trials);
    ("counts_mean", PyFloat mean_count);
    ("counts_var", PyFloat var_count);
    ("theor_mean", PyFloat (Finite (lam * T)));
    ("theor_var", PyFloat (Finite (lam * T)));
    ("realization_event_count", PyInt (len ts)) ]%string.

Record Run : Type := mkRun {
  p : Q;
  counts : list Z;
  event : Realization;
  mean_count : pyfloat;
  var_count : pyfloat;
  mean_ia : option pyfloat;
  var_ia : option pyfloat;
  out : pydict
}.

Section Script.

(** The draw sequence that [np.random.seed(s)] selects. *)
Variable seeded : Z -> nat -> Q.

(** [np.random.binomial(n, p, size=trials)]: NumPy's own sampler. *)
Variable binomial : Z -> Q -> Z -> M (list Z).

(** Line 20: [np.random.seed(seed)] replaces the generator state. *)
Definition seed_generator (s : Z) : M unit :=
  fun _ => Ok (tt, mkRng (seeded s) 0).

(** The script from top to bottom, up to the summary dictionary. *)
Definition main (ps : ParameterSet) : M Run :=
  let T := ps_T ps in
  let lam := ps_lam ps in
  let n := ps_n ps in
  let trials := ps_trials ps in
  p <- lift (truediv (lam * T) (inject_Z n)) ;;
  _ <- seed_generator (ps_seed ps) ;;
  counts <- binomial n p trials ;;
  ev <- realization n p T ;;
  let mean_count := mean (map inject_Z counts) in
  let var_count := var 0 (map inject_Z counts) in
  let ia_stats := interarrival_stats (interarrivals ev) in
  ret (mkRun p counts ev mean_count var_count
             (fst ia_stats) (snd ia_stats)
             (summary T lam n p trials mean_count var_count (times ev))).

End Script.

End NumPy.

(** ** The same lines in binary64

    The scripts once more, line for line, with Python's own float: IEEE 754
    binary64, every operation rounded to nearest, ties to even.  This is the
    reading on which rounding and the finite range of a float show; the
    modules [PurePy] and [NumPy] above are the reading in exact arithmetic. *)

Module F64.

(** [float(z)] as NumPy converts an integer: the nearest binary64 number. *)
Definition to_float (z : Z) : float :=
  SF2Prim (binary_normalize prec emax z 0 false).

(** [float(z)] as Python converts an [int] operand: an [int] beyond the
    float range raises. *)
Definition of_int (z : Z) : Result float :=
  if is_infinity (to_float z) then Raise OverflowError else Ok (to_float z).

(** [a / b] on floats: a zero divisor raises. *)
Definition truediv (a b : float) : Result float :=
  if (b =? 0)%float then Raise ZeroDivisionError else Ok (a / b)%float.

(** [a / n] for a float [a] and an [int] [n]. *)
Definition truediv_int (a : float) (n : Z) : Result float :=
  b <~ of_int n ;; truediv a b.

(** [x ** 2]: a finite [x] whose square leaves the float range raises. *)
Definition pow2 (x : float) : Result float :=
  if is_infinity (x * x)%float && is_finite x
  then Raise OverflowError
  else Ok (x * x)%float.

(** [sum(xs)]: a left fold from 0.  (CPython 3.12 adds a compensation term
    to this fold; it is zero whenever every partial sum is exact.) *)
Definition sum (xs : list float) : float :=
  fold_left PrimFloat.add xs 0%float.

(** [l[i]] *)
Definition getitem (l : list float) (i : Z) : Result float :=
  let j := if i <? 0 then i + len l else i in
  if j <? 0 then Raise IndexError
  else match nth_error l (Z.to_nat j) with
       | Some x => Ok x
       | None => Raise IndexError
       end.

(** Stable ascending sort. *)
Fixpoint insert_sorted (x : float) (l : list float) : list float :=
  match l with
  | [] => [x]
  | y :: l' => if (y <? x)%float then y :: insert_sorted x l' else x :: l
  end.

Fixpoint sort (l : list float) : list float :=
  match l with
  | [] => []
  | x :: l' => insert_sorted x (sort l')
  end.

(** The generator, delivering binary64 values. *)
Record Rng : Type := mkRng {
  draws : nat -> float;
  cursor : nat
}.

Definition M (A : Type) : Type := Rng -> Result (A * Rng).

Definition ret {A : Type} (a : A) : M A := fun g => Ok (a, g).

Definition bind {A B : Type} (c : M A) (k : A -> M B) : M B :=
  fun g =>
    match c g with
    | Ok (a, g') => k a g'
    | Raise e => Raise e
    end.

Notation "x <== c ;; k" := (bind c (fun x => k))
  (at level 61, c at next level, right associativity).

Definition lift {A : Type} (c : Result A) : M A :=
  fun g =>
    match c with
    | Ok a => Ok (a, g)
    | Raise e => Raise e
    end.

Definition random : M float :=
  fun g => Ok (draws g (cursor g), mkRng (draws g) (cursor g + 1)).

Fixpoint for_each {A S : Type} (xs : list A) (body : A -> S -> M S) (s : S)
  : M S :=
  match xs with
  | [] => ret s
  | x :: xs' => s' <== body x s ;; for_each xs' body s'
  end.

Fixpoint map_M {A B : Type} (f : A -> M B) (xs : list A) : M (list B) :=
  match xs with
  | [] => ret []
  | x :: xs' => y <== f x ;; ys <== map_M f xs' ;; ret (y :: ys)
  end.

Record Realization : Type := mkRealization {
  indices : list Z;
  times : list float;
  interarrivals : list float
}.

(** *** [simulate_poisson_approx_purepy.py] *)

(** Lines 33-37. *)
Definition hit_indices (n : Z) (p : float) : M (list Z) :=
  for_each (range n)
    (fun i indices =>
       u <== random ;;
       ret (if (u <? p)%float then indices ++ [i] else indices))
    [].

(** Line 40: [[(i + random.random()) * (T/n) for i in indices]]. *)
Definition place_events (idx : list Z) (n : Z) (T : float) : M (list float) :=
  map_M (fun i =>
           u <== random ;;
           x <== lift (of_int i) ;;
           w <== lift (truediv_int T n) ;;
           ret ((x + u) * w)%float)
        idx.

(** Line 42. *)
Definition gaps (ts : list float) : Result (list float) :=
  t0 <~ getitem ts 0 ;;
  rest <~ map_R (fun i =>
                   a <~ getitem ts i ;;
                   b <~ getitem ts (i - 1) ;;
                   Ok (a - b)%float)
                (range2 1 (len ts)) ;;
  Ok ([t0] ++ rest).

(** Lines 33-45. *)
Definition realization (n : Z) (p T : float) : M Realization :=
  idx <== hit_indices n p ;;
  if truthy idx then
    ts <== place_events idx n T ;;
    let ts := sort ts in
    ia <== lift (gaps ts) ;;
    ret (mkRealization idx ts ia)
  else
    ret (mkRealization idx [] []).

(** Lines 52-57.  The squares are taken one by one as [sum] asks for them;
    the first that overflows ends the run. *)
Definition interarrival_stats (ia : list float)
  : Result (option float * option float) :=
  if truthy ia then
    mean_ia <~ truediv_int (sum ia) (len ia) ;;
    squares <~ map_R (fun x => pow2 (x - mean_ia)%float) ia ;;
    var_ia <~ truediv_int (sum squares) (len ia) ;;
    Ok (Some mean_ia, Some var_ia)
  else
    Ok (None, None).

(** Lines 19-30. *)
Definition simulate_counts (trials n : Z) (p : float) : M (list Z) :=
  for_each (range trials)
    (fun _ counts =>
       c <== for_each (range n)
               (fun _ c =>
                  u <== random ;;
                  ret (if (u <? p)%float then c + 1 else c))
               0 ;;
       ret (counts ++ [c]))
    [].

(** [a / b] on two [int]s.  (Operands up to 2^53, which bound every sum of
    counts a run can hold, convert exactly.) *)
Definition truediv_ints (a b : Z) : Result float :=
  if b =? 0 then Raise ZeroDivisionError
  else x <~ of_int a ;; y <~ of_int b ;; Ok (x / y)%float.

(** Lines 48-49. *)
Definition mean_of_counts (counts : list Z) : Result float :=
  truediv_ints (sum_int counts) (len counts).

Definition var_of_counts (counts : list Z) (mean_count : float)
  : Result float :=
  squares <~ map_R (fun x => c <~ of_int x ;; pow2 (c - mean_count)%float)
                   counts ;;
  truediv_int (sum squares) (len counts).

(** What a run of the scalar script computes before it prints. *)
Record Run : Type := mkRun {
  p : float;
  counts : list Z;
  event : Realization;
  mean_count : float;
  var_count : float;
  mean_ia : option float;
  var_ia : option float
}.

(** Lines 13-57, from the generator state that [random.seed] leaves. *)
Definition main (T lam : float) (n trials : Z) : M Run :=
  p <== lift (truediv_int (lam * T)%float n) ;;
  counts <== simulate_counts trials n p ;;
  ev <== realization n p T ;;
  mean_count <== lift (mean_of_counts counts) ;;
  var_count <== lift (var_of_counts counts mean_count) ;;
  ia_stats <== lift (interarrival_stats (interarrivals ev)) ;;
  ret (mkRun p counts ev mean_count var_count (fst ia_stats) (snd ia_stats)).

(** *** [simulate_poisson_approx.py] *)

Fixpoint rand_fill (k : nat) : M (list float) :=
  match k with
  | O => ret []
  | S k' => u <== random ;; us <== rand_fill k' ;; ret (u :: us)
  end.

Definition rand (k : Z) : M (list float) :=
  if k <? 0 then lift (Raise ValueError) else rand_fill (Z.to_nat k).

Definition less (a : list float) (p : float) : list bool :=
  map (fun u => (u <? p)%float) a.

Definition add (idx : list Z) (u : list float) : list float :=
  map (fun iu => (to_float (fst iu) + snd iu)%float) (combine idx u).

Definition scale (a : list float) (w : float) : list float :=
  map (fun x => (x * w)%float) a.

Fixpoint diff (a : list float) : list float :=
  match a with
  | [] => []
  | x :: a' =>
      match a' with
      | [] => []
      | y :: _ => (y - x)%float :: diff a'
      end
  end.

(** Lines 27-36. *)
Definition numpy_realization (n : Z) (p T : float) : M Realization :=
  u <== rand n ;;
  let bernoulli := less u p in
  let idx := NumPy.nonzero bernoulli in
  if len idx >? 0 then
    jitter <== rand (len idx) ;;
    w <== lift (truediv_int T n) ;;
    let ts := sort (scale (add idx jitter) w) in
    ret (mkRealization idx ts (diff ([0%float] ++ ts)))
  else
    ret (mkRealization idx [] []).

(** A strictly increasing list of binary64 times. *)
Definition increasing (ts : list float) : Prop :=
  StronglySorted (fun a b => (a <? b)%float = true) ts.

(** A generator that delivers the listed values and then 0.5 for ever. *)
Definition delivering (us : list float) : Rng :=
  mkRng (fun k => nth k us 0.5%float) 0.

End F64.

(** * Vocabulary of the properties *)

(** A strictly increasing list of times. *)
Definition increasing (ts : list Q) : Prop := StronglySorted Qlt ts.


(** A strictly increasing list of indices. *)
Definition increasing_Z (idx : list Z) : Prop := StronglySorted Z.lt idx.

(** The hit indices as a function of the generator state. *)
Definition hits (n : Z) (p : Q) (g : Rng) : list Z :=
  NumPy.nonzero (NumPy.less (upcoming g (Z.to_nat n)) p).

(** The event times before the sort: the jitter is read after the [n]
    Bernoulli draws, one value per hit. *)
Definition raw_times (n : Z) (p T : Q) (g : Rng) : list Q :=
  NumPy.scale
    (NumPy.add (hits n p g)
               (upcoming (advance g (Z.to_nat n)) (length (hits n p g))))
    (T / inject_Z n)%Q.

(** What a builder returns from generator state [g], in closed form. *)
Definition built (n : Z) (p T : Q) (g : Rng) : Realization :=
  if truthy (hits n p g) then
    mkRealization (hits n p g) (sort (raw_times n p T g))
                  (NumPy.diff ([0%Q] ++ sort (raw_times n p T g)))
  else
    mkRealization (hits n p g) [] [].

(** The generator state a builder leaves: [n] draws on, and one more for
    every hit. *)
Definition consumed (n : Z) (p : Q) (g : Rng) : Rng :=
  if truthy (hits n p g)
  then advance g (Z.to_nat n + length (hits n p g))
  else advance g (Z.to_nat n).

(** A valid configuration, as the realization builder sees it. *)
Definition valid_parameters (n : Z) (p T : Q) : Prop :=
  (0 < p /\ p <= 1)%Q /\ 1 <= n /\ (0 < T)%Q.

(** Both scripts, run from generator state [g], return realization [r]. *)
Definition both_return (n : Z) (p T : Q) (g : Rng) (r : Realization) : Prop :=
  exists g' : Rng,
    PurePy.realization n p T g = Ok (r, g') /\
    NumPy.realization n p T g = Ok (r, g').

(** A generator to run the scripts on: 0.3, 0.0, 0.7, 0.4, 0.1, 0.8, ... *)
Definition demo_draws (k : nat) : Q :=
  Z.of_nat ((7 * k + 3) mod 10) # 10.

(** That generator, nothing consumed yet. *)
Definition demo_rng : Rng := mkRng demo_draws 0.

(** [ia] is the gap sequence of [ts]: as long as [ts], empty exactly when
    [ts] is, first gap the first timestamp, every later gap the difference
    of two neighbours. *)
Definition gaps_of (ts ia : list Q) : Prop :=
  length ia = length ts /\
  (ia = [] <-> ts = []) /\
  (forall t0 : Q,
      nth_error ts 0 = Some t0 ->
      exists d : Q, nth_error ia 0 = Some d /\ (d == t0)%Q) /\
  (forall (k : nat) (a b : Q),
      nth_error ts k = Some a -> nth_error ts (S k) = Some b ->
      exists d : Q, nth_error ia (S k) = Some d /\ (d == b - a)%Q).

(** The counts of the scalar sampler in closed form: round by round, the
    number of draws below [p] among the next [per_round]. *)
Fixpoint round_counts (rounds per_round : nat) (p : Q) (g : Rng) : list Z :=
  match rounds with
  | O => []
  | S rounds' =>
      len (filter (fun u => Qltb u p) (upcoming g per_round))
      :: round_counts rounds' per_round p (advance g per_round)
  end.

(** Following the spec's words: the population mean is the sum of the
    elements divided by their count. *)
Definition population_mean (xs : list Q) : Q :=
  (fold_right Qplus 0 xs / inject_Z (Z.of_nat (length xs)))%Q.

(** Following the spec's words: the population variance is the sum of the
    squared deviations from the mean divided by the element count (not by
    the count minus one). *)
Definition population_variance (xs : list Q) : Q :=
  (fold_right Qplus 0
     (map (fun x => (x - population_mean xs) * (x - population_mean xs)) xs)
   / inject_Z (Z.of_nat (length xs)))%Q.

(** Two stored values are the same value: floats compare numerically. *)
Definition same_value (v w : pyval) : Prop :=
  match v, w with
  | PyInt a, PyInt b => a = b
  | PyFloat (Finite a), PyFloat (Finite b) => (a == b)%Q
  | PyFloat NaN, PyFloat NaN => True
  | PyFloat Infinity, PyFloat Infinity => True
  | PyNone, PyNone => True
  | _, _ => False
  end.

(** Some field of the dictionary, whatever its name, holds the value. *)
Definition carries (d : pydict) (v : pyval) : Prop :=
  exists (key : string) (v' : pyval),
    lookup key d = Some v' /\ same_value v' v.

(** An empirical statistic as a stored value: the number, or [None] as the
    absent-marker. *)
Definition stat_value (o : option Q) : pyval :=
  match o with
  | Some q => PyFloat (Finite q)
  | None => PyNone
  end.

(** The three further fields the external interface lists: the empirical
    interarrival mean and variance (or the absent-marker) and 1/lambda. *)
Definition carries_interarrival_fields
    (d : pydict) (mean_ia var_ia : option Q) (lam : Q) : Prop :=
  carries d (stat_value mean_ia) /\
  carries d (stat_value var_ia) /\
  carries d (PyFloat (Finite (1 / lam))).

(** The ten fields of the dictionary the scripts write, key by key. *)
Definition summary_fields (d : pydict) (T lam : Q) (n : Z) (p : Q)
    (trials : Z) (mean_count var_count : pyfloat) (events : Z) : Prop :=
  keys d = [ "T"; "lambda"; "n"; "p"; "trials"; "counts_mean"; "counts_var";
             "theor_mean"; "theor_var"; "realization_event_count" ]%string /\
  lookup "T" d = Some (PyFloat (Finite T)) /\
  lookup "lambda" d = Some (PyFloat (Finite lam)) /\
  lookup "n" d = Some (PyInt n) /\
  lookup "p" d = Some (PyFloat (Finite p)) /\
  lookup "trials" d = Some (PyInt trials) /\
  lookup "counts_mean" d = Some (PyFloat mean_count) /\
  lookup "counts_var" d = Some (PyFloat var_count) /\
  lookup "theor_mean" d = Some (PyFloat (Finite (lam * T))) /\
  lookup "theor_var" d = Some (PyFloat (Finite (lam * T))) /\
  lookup "realization_event_count" d = Some (PyInt events).

(** A small configuration to run the scripts on: p = 3 * 1 / 6. *)
Definition demo_parameters : ParameterSet := mkParameterSet 1 3 6 3 42.

(** The same with rate zero: no subinterval can be a hit. *)
Definition silent_parameters : ParameterSet := mkParameterSet 1 0 6 3 42.

(** * Vocabulary of the further properties *)

(** The draws of round [j] of the count sampler: [per_round] values, read
    after the [j] rounds before it. *)
Definition round_draws (g : Rng) (per_round j : nat) : list Q :=
  upcoming (advance g (j * per_round)) per_round.

(** How many of the values lie below the threshold. *)
Definition below (p : Q) (us : list Q) : Z :=
  len (filter (fun u => Qltb u p) us).

(** ** The printed report *)

(** A piece of a printed line: literal text, a value shown as [str] shows
    it, or a float shown through a format specification.  How a number is
    rendered in decimal is left symbolic. *)
Inductive piece : Type :=
| Text (s : string)
| Shown (v : pyval)
| Formatted (spec : string) (x : pyfloat).

Definition line : Type := list piece.

(** What can end a report early: an exception of the arithmetic, or the
    [TypeError] of formatting [None] as a float. *)
Inductive PyException : Type :=
| Builtin (e : PyError)
| TypeError.

(** [simulate_poisson_approx_purepy.py], lines 59-66: the lines printed
    before the branch on [interarrivals]. *)
Definition purepy_report_head (T lam : Q) (n : Z) (p : Q) (trials : Z)
    (mean_count var_count : Q) : list line :=
  [ [Text "Poisson-approximation simulation summary (pure Python)"];
    [Text "Parameters: T="; Shown (PyFloat (Finite T));
     Text ", lambda="; Shown (PyFloat (Finite lam));
     Text ", n="; Shown (PyInt n);
     Text ", p=lambda*T/n="; Formatted ".6g" (Finite p);
     Text ", trials="; Shown (PyInt trials)];
    [];
    [Text "Counts over trials:"];
    [Text " empirical mean = "; Formatted ".6f" (Finite mean_count)];
    [Text " empirical var  = "; Formatted ".6f" (Finite var_count)];
    [Text " theoretical (Poisson) mean = var = lambda * T = ";
     Formatted ".6f" (Finite (lam * T))];
    [] ]%string.

(** Lines 59-74: everything the scalar script prints before it builds the
    summary, and the exception that stopped it, if any.  The lines printed
    before an exception stay printed. *)
Definition purepy_report (T lam : Q) (n : Z) (p : Q) (trials : Z)
    (mean_count var_count : Q) (ts ia : list Q) (mean_ia var_ia : option Q)
  : list line * option PyException :=
  let head := purepy_report_head T lam n p trials mean_count var_count in
  if truthy ia then
    let l10 :=
      head ++
      [ [Text "Interarrival times from one realization (approx):"];
        [Text " number of events in realization = ";
         Shown (PyInt (len ts))] ]%string in
    match mean_ia with
    | None => (l10, Some TypeError)
    | Some m =>
        let l11 :=
          l10 ++
          [ [Text " empirical mean interarrival (including time from 0 to first) = ";
             Formatted ".6f" (Finite m)] ]%string in
        match var_ia with
        | None => (l11, Some TypeError)
        | Some v =>
            let l12 :=
              l11 ++
              [ [Text " empirical var interarrival = ";
                 Formatted ".6f" (Finite v)] ]%string in
            match truediv 1 lam with
            | Raise e => (l12, Some (Builtin e))
            | Ok x =>
                (l12 ++
                 [ [Text " theoretical Exponential mean = 1/lambda = ";
                    Formatted ".6f" (Finite x)] ]%string,
                 None)
            end
        end
    end
  else
    (head ++
     [ [Text "No events in the single realization used for interarrival inspection."] ]%string,
     None).

(** [simulate_poisson_approx.py], lines 55-64. *)
Definition numpy_report_head (T lam : Q) (n : Z) (p : Q) (trials : Z)
    (mean_count var_count : pyfloat) : list line :=
  [ [Text "Poisson-approximation simulation summary"];
    [Text "Parameters: T="; Shown (PyFloat (Finite T));
     Text ", lambda="; Shown (PyFloat (Finite lam));
     Text ", n="; Shown (PyInt n);
     Text ", p=lambda*T/n="; Formatted ".6g" (Finite p);
     Text ", trials="; Shown (PyInt trials)];
    [];
    [Text "Counts over trials:"];
    [Text " empirical mean = "; Formatted ".6f" mean_count];
    [Text " empirical var  = "; Formatted ".6f" var_count];
    [Text " theoretical (Poisson) mean = var = lambda * T = ";
     Formatted ".6f" (Finite (lam * T))];
    [];
    [Text "Interpretation: As n -> infinity with p=lambda*T/n, the Binomial(n,p) count per interval converges in distribution to Poisson(lambda*T)."];
    [] ]%string.

(** Lines 55-74 of the vectorised script. *)
Definition numpy_report (T lam : Q) (n : Z) (p : Q) (trials : Z)
    (mean_count var_count : pyfloat) (ts ia : list Q)
    (mean_ia var_ia : option pyfloat)
  : list line * option PyException :=
  let head := numpy_report_head T lam n p trials mean_count var_count in
  if len ia >? 0 then
    let l12 :=
      head ++
      [ [Text "Interarrival times from one realization (approx):"];
        [Text " number of events in realization = ";
         Shown (PyInt (len ts))] ]%string in
    match mean_ia with
    | None => (l12, Some TypeError)
    | Some m =>
        let l13 :=
          l12 ++
          [ [Text " empirical mean interarrival (including time from 0 to first) = ";
             Formatted ".6f" m] ]%string in
        match var_ia with
        | None => (l13, Some TypeError)
        | Some v =>
            let l14 :=
              l13 ++
              [ [Text " empirical var interarrival = ";
                 Formatted ".6f" v] ]%string in
            match truediv 1 lam with
            | Raise e => (l14, Some (Builtin e))
            | Ok x =>
                (l14 ++
                 [ [Text " theoretical Exponential mean = 1/lambda = ";
                    Formatted ".6f" (Finite x)];
                   [];
                   [Text "Note: exponential interarrival distribution arises in the limit as n->infty; here we used uniform placement within subintervals to approximate continuous-time events."] ]%string,
                 None)
            end
        end
    end
  else
    (head ++
     [ [Text "No events in the single realization used for interarrival inspection."] ]%string,
     None).

(** The report of a run of the scalar script. *)
Definition purepy_report_of (ps : ParameterSet) (run : PurePy.Run)
  : list line * option PyException :=
  purepy_report (ps_T ps) (ps_lam ps) (ps_n ps) (PurePy.p run)
                (ps_trials ps) (PurePy.mean_count run) (PurePy.var_count run)
                (times (PurePy.event run))
                (interarrivals (PurePy.event run))
                (PurePy.mean_ia run) (PurePy.var_ia run).

(** The report of a run of the vectorised script. *)
Definition numpy_report_of (ps : ParameterSet) (run : NumPy.Run)
  : list line * option PyException :=
  numpy_report (ps_T ps) (ps_lam ps) (ps_n ps) (NumPy.p run)
               (ps_trials ps) (NumPy.mean_count run) (NumPy.var_count run)
               (times (NumPy.event run))
               (interarrivals (NumPy.event run))
               (NumPy.mean_ia run) (NumPy.var_ia run).

(** * Properties *)

(** ** Arithmetic and list facts used throughout *)

Lemma Qltb_lt (x y : Q) : Qltb x y = true <-> (x < y)%Q.
Proof. unfold Qltb, Qlt. apply Z.ltb_lt. Qed.

Lemma Qltb_ge (x y : Q) : Qltb x y = false <-> (y <= x)%Q.
Proof. unfold Qltb, Qle. rewrite Z.ltb_ge. reflexivity. Qed.

Lemma inject_Z_nonzero (z : Z) : z <> 0 -> ~ (inject_Z z == 0)%Q.
Proof. unfold Qeq; simpl. lia. Qed.

Lemma truediv_ok (a b : Q) : ~ (b == 0)%Q -> truediv a b = Ok (a / b)%Q.
Proof.
  intros Hb. unfold truediv.
  destruct (Qeq_bool b 0) eqn:E; [| reflexivity].
  apply Qeq_bool_iff in E. contradiction.
Qed.

Lemma truediv_zero (a b : Q) :
  (b == 0)%Q -> truediv a b = Raise ZeroDivisionError.
Proof.
  intros Hb. unfold truediv. apply Qeq_bool_iff in Hb. now rewrite Hb.
Qed.

(** Subtracting the float zero leaves the very same number. *)
Lemma Qminus_zero (t : Q) : (t - 0)%Q = t.
Proof.
  destruct t as [a b]. unfold Qminus, Qplus, Qopp; simpl.
  f_equal; [lia | apply Pos.mul_1_r].
Qed.

Lemma seq_map_succ {A : Type} (f : nat -> A) (m : nat) :
  map f (seq 0 (S m)) = f 0%nat :: map (fun k => f (S k)) (seq 0 m).
Proof.
  simpl. f_equal. rewrite <- seq_shift, map_map. reflexivity.
Qed.

Lemma truthy_length {A : Type} (l : list A) : truthy l = (len l >? 0).
Proof. destruct l; reflexivity. Qed.

(** ** The generator *)

Lemma upcoming_S (g : Rng) (m : nat) :
  upcoming g (S m) = draws g (cursor g) :: upcoming (advance g 1) m.
Proof.
  unfold upcoming. rewrite seq_map_succ. f_equal.
  - f_equal. lia.
  - apply map_ext. intros j; simpl. f_equal. lia.
Qed.

Lemma upcoming_length (g : Rng) (m : nat) : length (upcoming g m) = m.
Proof. unfold upcoming. now rewrite length_map, length_seq. Qed.

Lemma advance_advance (g : Rng) (a b : nat) :
  advance (advance g a) b = advance g (a + b).
Proof. unfold advance; simpl. f_equal. lia. Qed.

Lemma advance_0 (g : Rng) : advance g 0 = g.
Proof. destruct g; unfold advance; simpl. f_equal. lia. Qed.

Lemma unit_draws_advance (g : Rng) (k : nat) :
  unit_draws g -> unit_draws (advance g k).
Proof. intros H j. apply H. Qed.

Lemma upcoming_unit (g : Rng) (m : nat) :
  unit_draws g -> Forall (fun u => 0 <= u /\ u < 1)%Q (upcoming g m).
Proof.
  intros H. unfold upcoming. apply Forall_forall. intros u Hu.
  apply in_map_iff in Hu. destruct Hu as [j [<- _]]. apply H.
Qed.

(** [np.random.rand] delivers the upcoming draws and moves the cursor. *)
Lemma rand_fill_run (k : nat) (g : Rng) :
  NumPy.rand_fill k g = Ok (upcoming g k, advance g k).
Proof.
  revert g. induction k as [| k IH]; intros g.
  - simpl. unfold ret. now rewrite advance_0.
  - simpl. unfold bind, random. rewrite IH. unfold ret.
    now rewrite upcoming_S, advance_advance.
Qed.

Lemma rand_run (k : Z) (g : Rng) :
  0 <= k ->
  NumPy.rand k g = Ok (upcoming g (Z.to_nat k), advance g (Z.to_nat k)).
Proof.
  intros Hk. unfold NumPy.rand.
  destruct (k <? 0) eqn:E; [apply Z.ltb_lt in E; lia |].
  apply rand_fill_run.
Qed.

(** ** The scalar loops against the vectorised operations *)

Lemma range2_unfold (a b : Z) :
  range2 a b = map (fun k => a + Z.of_nat k) (seq 0 (Z.to_nat (b - a))).
Proof. reflexivity. Qed.

(** The index loop of the scalar script, started at index [a] with [m]
    subintervals left and [acc] already collected. *)
Lemma hit_loop_run (p : Q) (m : nat) :
  forall (a : Z) (acc : list Z) (g : Rng),
    for_each (map (fun k => a + Z.of_nat k) (seq 0 m))
      (fun i idx => u <- random ;; ret (if Qltb u p then idx ++ [i] else idx))
      acc g
    = Ok (acc ++ NumPy.nonzero_from a (NumPy.less (upcoming g m) p),
          advance g m).
Proof.
  induction m as [| m IH]; intros a acc g.
  - simpl. unfold ret. now rewrite app_nil_r, advance_0.
  - rewrite seq_map_succ, upcoming_S.
    cbn [for_each]. unfold bind at 1. unfold bind at 1. unfold random, ret.
    rewrite (map_ext (fun k => a + Z.of_nat (S k))
                     (fun k => (a + 1) + Z.of_nat k)) by (intros; lia).
    rewrite IH, advance_advance. simpl Z.of_nat. rewrite Z.add_0_r.
    cbn [NumPy.less map NumPy.nonzero_from].
    destruct (Qltb (draws g (cursor g)) p).
    + now rewrite <- app_assoc.
    + reflexivity.
Qed.

Lemma hit_indices_run (n : Z) (p : Q) (g : Rng) :
  PurePy.hit_indices n p g
  = Ok (NumPy.nonzero (NumPy.less (upcoming g (Z.to_nat n)) p),
        advance g (Z.to_nat n)).
Proof.
  unfold PurePy.hit_indices, range. rewrite range2_unfold, Z.sub_0_r.
  now rewrite hit_loop_run.
Qed.

(** The inner loop of the count sampler: one more for every draw below [p]. *)
Lemma count_loop_run (p : Q) (m : nat) :
  forall (a : Z) (c : Z) (g : Rng),
    for_each (map (fun k => a + Z.of_nat k) (seq 0 m))
      (fun (_ : Z) c => u <- random ;; ret (if Qltb u p then c + 1 else c))
      c g
    = Ok (c + len (filter (fun u => Qltb u p) (upcoming g m)), advance g m).
Proof.
  induction m as [| m IH]; intros a c g.
  - simpl. unfold ret, len. simpl. now rewrite Z.add_0_r, advance_0.
  - rewrite seq_map_succ, upcoming_S.
    cbn [for_each]. unfold bind at 1. unfold bind at 1. unfold random, ret.
    rewrite (map_ext (fun k => a + Z.of_nat (S k))
                     (fun k => (a + 1) + Z.of_nat k)) by (intros; lia).
    rewrite IH, advance_advance. cbn [filter].
    destruct (Qltb (draws g (cursor g)) p); unfold len; cbn [length];
      do 2 f_equal; lia.
Qed.

(** ** Running the monad *)

Lemma bind_run {A B : Type} (c : M A) (k : A -> M B) (g g' : Rng) (a : A) :
  c g = Ok (a, g') -> bind c k g = k a g'.
Proof. intros H. unfold bind. now rewrite H. Qed.

Lemma bind_raise {A B : Type} (c : M A) (k : A -> M B) (g : Rng)
    (e : PyError) :
  c g = Raise e -> bind c k g = Raise e.
Proof. intros H. unfold bind. now rewrite H. Qed.

Lemma lift_run {A : Type} (c : Result A) (a : A) (g : Rng) :
  c = Ok a -> lift c g = Ok (a, g).
Proof. intros ->. reflexivity. Qed.

(** The jitter comprehension of the scalar script. *)
Lemma place_events_run (n : Z) (T : Q) :
  n <> 0 ->
  forall (idx : list Z) (g : Rng),
    PurePy.place_events idx n T g
    = Ok (NumPy.scale (NumPy.add idx (upcoming g (length idx)))
                      (T / inject_Z n)%Q,
          advance g (length idx)).
Proof.
  intros Hn. unfold PurePy.place_events.
  induction idx as [| i idx IH]; intros g.
  - simpl. unfold ret. now rewrite advance_0.
  - cbn [map_M length]. rewrite upcoming_S.
    erewrite bind_run; cycle 1.
    { erewrite bind_run by reflexivity.
      erewrite bind_run
        by (apply lift_run, truediv_ok, inject_Z_nonzero, Hn).
      reflexivity. }
    erewrite bind_run by apply IH.
    unfold ret. now rewrite advance_advance.
Qed.

(** ** Indexing and the gap comprehension *)

Lemma getitem_middle (l1 : list Q) (x : Q) (l2 : list Q) (i : Z) :
  i = len l1 -> getitem (l1 ++ x :: l2) i = Ok x.
Proof.
  intros ->. unfold getitem, len.
  destruct (Z.of_nat (length l1) <? 0) eqn:E; [apply Z.ltb_lt in E; lia |].
  rewrite E, Nat2Z.id, nth_error_app2 by lia.
  now rewrite Nat.sub_diag.
Qed.

Lemma getitem_empty (i : Z) : getitem [] i = Raise IndexError.
Proof.
  unfold getitem, len; simpl.
  destruct (i <? 0) eqn:E.
  - rewrite Z.add_0_r, E. reflexivity.
  - rewrite E. now destruct (Z.to_nat i).
Qed.

(** The comprehension [[times[i] - times[i-1] for i in range(1, len(times))]]
    read off at any position inside the list: it never leaves the list and
    it is the array of successive differences. *)
Lemma gap_comprehension (l2 : list Q) :
  forall (l1 : list Q) (x : Q),
    map_R (fun i =>
             a <~ getitem (l1 ++ x :: l2) i ;;
             b <~ getitem (l1 ++ x :: l2) (i - 1) ;;
             Ok (a - b)%Q)
          (map (fun k => len l1 + 1 + Z.of_nat k) (seq 0 (length l2)))
    = Ok (NumPy.diff (x :: l2)).
Proof.
  induction l2 as [| y l2 IH]; intros l1 x.
  - reflexivity.
  - cbn [length]. rewrite seq_map_succ. cbn [map_R].
    assert (Hy : getitem (l1 ++ x :: y :: l2) (len l1 + 1 + Z.of_nat 0) = Ok y).
    { replace (l1 ++ x :: y :: l2) with ((l1 ++ [x]) ++ y :: l2)
        by (now rewrite <- app_assoc).
      apply getitem_middle. unfold len. rewrite length_app. simpl. lia. }
    assert (Hx : getitem (l1 ++ x :: y :: l2) (len l1 + 1 + Z.of_nat 0 - 1)
                 = Ok x).
    { apply getitem_middle. simpl. lia. }
    rewrite Hy, Hx. cbn [rbind].
    replace (l1 ++ x :: y :: l2) with ((l1 ++ [x]) ++ y :: l2)
      by (now rewrite <- app_assoc).
    rewrite (map_ext (fun k => len l1 + 1 + Z.of_nat (S k))
                     (fun k => len (l1 ++ [x]) + 1 + Z.of_nat k)).
    2:{ intros k. unfold len. rewrite length_app. simpl. lia. }
    rewrite IH. reflexivity.
Qed.

(** On a non-empty list the scalar extractor raises nothing and returns what
    [np.diff(np.concatenate(([0.0], times)))] returns. *)
Lemma gaps_run (t0 : Q) (ts : list Q) :
  PurePy.gaps (t0 :: ts) = Ok (NumPy.diff ([0%Q] ++ t0 :: ts)).
Proof.
  unfold PurePy.gaps.
  assert (H0 : getitem (t0 :: ts) 0 = Ok t0)
    by (apply (getitem_middle [] t0 ts 0); reflexivity).
  rewrite H0. cbn [rbind].
  rewrite range2_unfold.
  replace (Z.to_nat (len (t0 :: ts) - 1)) with (length ts)
    by (unfold len; simpl length; lia).
  pose proof (gap_comprehension ts [] t0) as H. cbn [app] in H.
  rewrite (map_ext (fun k => 1 + Z.of_nat k)
                   (fun k => len (@nil Q) + 1 + Z.of_nat k))
    by (intros; unfold len; simpl; lia).
  rewrite H. cbn [rbind app NumPy.diff].
  now rewrite Qminus_zero.
Qed.

Lemma gaps_empty : PurePy.gaps [] = Raise IndexError.
Proof. reflexivity. Qed.

(** ** Order *)

Lemma increasing_nondecreasing (ts : list Q) :
  increasing ts -> StronglySorted Qle ts.
Proof.
  induction 1 as [| t ts Hs IH Hall]; constructor; auto.
  eapply Forall_impl; [| exact Hall]. intros; now apply Qlt_le_weak.
Qed.

(** Sorting leaves a list that is already in order exactly as it is. *)
Lemma sort_in_order (ts : list Q) : StronglySorted Qle ts -> sort ts = ts.
Proof.
  induction 1 as [| t ts Hs IH Hall]; [reflexivity |].
  cbn [sort]. rewrite IH.
  destruct ts as [| t' ts']; [reflexivity |].
  cbn [insert_sorted].
  apply Forall_inv in Hall. apply Qle_bool_iff in Hall. now rewrite Hall.
Qed.

Lemma insert_sorted_length (x : Q) (l : list Q) :
  length (insert_sorted x l) = S (length l).
Proof.
  induction l as [| y l IH]; [reflexivity |].
  cbn [insert_sorted]. destruct (Qle_bool x y); cbn [length]; auto.
Qed.

Lemma sort_length (l : list Q) : length (sort l) = length l.
Proof.
  induction l as [| x l IH]; [reflexivity |].
  cbn [sort]. now rewrite insert_sorted_length, IH.
Qed.

(** ** The hit indices *)

Lemma nonzero_from_bounds (b : list bool) :
  forall (a i : Z), In i (NumPy.nonzero_from a b) -> a <= i < a + len b.
Proof.
  induction b as [| [|] b IH]; intros a i Hi; cbn [NumPy.nonzero_from] in Hi.
  - contradiction.
  - unfold len in *; cbn [length]. destruct Hi as [<- | Hi]; [lia |].
    apply IH in Hi. lia.
  - unfold len in *; cbn [length]. apply IH in Hi. lia.
Qed.

Lemma nonzero_from_increasing (b : list bool) :
  forall a : Z, increasing_Z (NumPy.nonzero_from a b).
Proof.
  induction b as [| [|] b IH]; intros a; cbn [NumPy.nonzero_from].
  - constructor.
  - constructor; [apply IH |].
    apply Forall_forall. intros i Hi. apply nonzero_from_bounds in Hi. lia.
  - apply IH.
Qed.

Lemma nonzero_from_length (b : list bool) :
  forall a : Z, (length (NumPy.nonzero_from a b) <= length b)%nat.
Proof.
  induction b as [| [|] b IH]; intros a; cbn [NumPy.nonzero_from length].
  - lia.
  - specialize (IH (a + 1)). lia.
  - specialize (IH (a + 1)). lia.
Qed.

(** ** The raw event times *)

Lemma in_scale_add (t : Q) (idx : list Z) (u : list Q) (w : Q) :
  In t (NumPy.scale (NumPy.add idx u) w) ->
  exists i x, In i idx /\ In x u /\ t = ((inject_Z i + x) * w)%Q.
Proof.
  unfold NumPy.scale, NumPy.add. rewrite map_map. intros H.
  apply in_map_iff in H. destruct H as [[i x] [<- Hin]].
  exists i, x. repeat split.
  - eapply in_combine_l; eauto.
  - eapply in_combine_r; eauto.
Qed.

Lemma scale_add_length (idx : list Z) (u : list Q) (w : Q) :
  length u = length idx ->
  length (NumPy.scale (NumPy.add idx u) w) = length idx.
Proof.
  intros H. unfold NumPy.scale, NumPy.add.
  rewrite !length_map, length_combine. lia.
Qed.

Lemma inject_Z_lt_succ (i j : Z) (x y : Q) :
  i < j -> (x < 1)%Q -> (0 <= y)%Q -> (inject_Z i + x < inject_Z j + y)%Q.
Proof.
  intros Hij Hx Hy.
  assert (H : (inject_Z i + 1 <= inject_Z j)%Q).
  { change 1%Q with (inject_Z 1). rewrite <- inject_Z_plus.
    rewrite <- Zle_Qle. lia. }
  lra.
Qed.

(** Increasing hit indices, jitter in [0, 1) and a positive cell width give
    strictly increasing times: jitter never crosses a cell boundary. *)
Lemma scale_add_increasing (w : Q) (idx : list Z) :
  (0 < w)%Q -> increasing_Z idx ->
  forall u : list Q,
    Forall (fun x => 0 <= x /\ x < 1)%Q u ->
    increasing (NumPy.scale (NumPy.add idx u) w).
Proof.
  intros Hw Hidx. induction Hidx as [| i idx Hs IH Hall]; intros u Hu.
  - constructor.
  - destruct u as [| x u]; [constructor |].
    inversion Hu as [| ? ? [Hx0 Hx1] Hu']; subst.
    change (NumPy.scale (NumPy.add (i :: idx) (x :: u)) w)
      with (((inject_Z i + x) * w)%Q :: NumPy.scale (NumPy.add idx u) w).
    constructor; [now apply IH |].
    apply Forall_forall. intros t Ht.
    apply in_scale_add in Ht. destruct Ht as [j [y [Hj [Hy ->]]]].
    apply Qmult_lt_compat_r; [exact Hw |].
    rewrite Forall_forall in Hall, Hu'.
    apply inject_Z_lt_succ; [now apply Hall | exact Hx1 | now apply Hu'].
Qed.

(** ** The realization in closed form *)

Lemma hits_positive (n : Z) (p : Q) (g : Rng) :
  truthy (hits n p g) = true -> 0 < n.
Proof.
  unfold hits, NumPy.nonzero. intros H.
  destruct (Z.to_nat n) eqn:E; [discriminate H | lia].
Qed.

Lemma hits_length (n : Z) (p : Q) (g : Rng) :
  (length (hits n p g) <= Z.to_nat n)%nat.
Proof.
  unfold hits, NumPy.nonzero.
  etransitivity; [apply nonzero_from_length |].
  unfold NumPy.less. now rewrite length_map, upcoming_length.
Qed.

Lemma raw_times_length (n : Z) (p T : Q) (g : Rng) :
  length (raw_times n p T g) = length (hits n p g).
Proof. unfold raw_times. apply scale_add_length, upcoming_length. Qed.

Lemma truthy_sort_raw (n : Z) (p T : Q) (g : Rng) :
  truthy (hits n p g) = true ->
  exists t0 ts, sort (raw_times n p T g) = t0 :: ts.
Proof.
  intros H. pose proof (sort_length (raw_times n p T g)) as HL.
  rewrite raw_times_length in HL.
  destruct (hits n p g); [discriminate H |].
  destruct (sort (raw_times n p T g)) as [| t0 ts]; [discriminate HL |].
  now exists t0, ts.
Qed.

(** The scalar script's builder, for every [n], [p], [T] and generator. *)
Lemma purepy_realization_run (n : Z) (p T : Q) (g : Rng) :
  PurePy.realization n p T g = Ok (built n p T g, consumed n p g).
Proof.
  unfold PurePy.realization.
  erewrite bind_run by apply hit_indices_run.
  fold (hits n p g). unfold built, consumed.
  destruct (truthy (hits n p g)) eqn:E; [| reflexivity].
  pose proof (hits_positive _ _ _ E) as Hn.
  erewrite bind_run by (apply place_events_run; lia).
  fold (raw_times n p T g).
  destruct (truthy_sort_raw n p T g E) as [t0 [ts Hs]].
  erewrite bind_run by (apply lift_run; rewrite Hs; apply gaps_run).
  unfold ret. rewrite advance_advance, Hs. reflexivity.
Qed.

(** The vectorised script's builder, for a size NumPy accepts. *)
Lemma numpy_realization_run (n : Z) (p T : Q) (g : Rng) :
  0 <= n ->
  NumPy.realization n p T g = Ok (built n p T g, consumed n p g).
Proof.
  intros Hn. unfold NumPy.realization.
  erewrite bind_run by (apply rand_run; exact Hn).
  fold (hits n p g). unfold built, consumed.
  rewrite <- truthy_length.
  destruct (truthy (hits n p g)) eqn:E; [| reflexivity].
  pose proof (hits_positive _ _ _ E) as Hpos.
  erewrite bind_run by (apply rand_run; unfold len; lia).
  unfold len. rewrite Nat2Z.id.
  erewrite bind_run
    by (apply lift_run, truediv_ok, inject_Z_nonzero; lia).
  fold (raw_times n p T g).
  unfold ret. rewrite advance_advance. reflexivity.
Qed.

(** A negative size is refused by [np.random.rand]. *)
Lemma numpy_realization_negative (n : Z) (p T : Q) (g : Rng) :
  n < 0 -> NumPy.realization n p T g = Raise ValueError.
Proof.
  intros Hn. unfold NumPy.realization, NumPy.rand.
  apply Z.ltb_lt in Hn. unfold bind. now rewrite Hn.
Qed.

Lemma both_return_built (n : Z) (p T : Q) (g : Rng) :
  0 <= n -> both_return n p T g (built n p T g).
Proof.
  intros Hn. exists (consumed n p g). split.
  - apply purepy_realization_run.
  - now apply numpy_realization_run.
Qed.

Lemma cell_width_positive (n : Z) (T : Q) :
  0 < n -> (0 < T)%Q -> (0 < T / inject_Z n)%Q.
Proof.
  intros Hn HT. apply Qlt_shift_div_l.
  - unfold Qlt; simpl. lia.
  - lra.
Qed.

Lemma raw_times_increasing (n : Z) (p T : Q) (g : Rng) :
  unit_draws g -> 0 < n -> (0 < T)%Q -> increasing (raw_times n p T g).
Proof.
  intros Hg Hn HT. unfold raw_times.
  apply scale_add_increasing.
  - now apply cell_width_positive.
  - apply nonzero_from_increasing.
  - apply upcoming_unit, unit_draws_advance, Hg.
Qed.

Lemma hits_bounds (n : Z) (p : Q) (g : Rng) (i : Z) :
  In i (hits n p g) -> 0 <= i < n.
Proof.
  unfold hits, NumPy.nonzero. intros H. apply nonzero_from_bounds in H.
  unfold len, NumPy.less in H. rewrite length_map, upcoming_length in H. lia.
Qed.

(** Every raw time lies in the cell of its hit index, hence in [0, T). *)
Lemma raw_times_bounds (n : Z) (p T : Q) (g : Rng) :
  unit_draws g -> 0 < n -> (0 < T)%Q ->
  Forall (fun t => 0 <= t /\ t < T)%Q (raw_times n p T g).
Proof.
  intros Hg Hn HT. apply Forall_forall. intros t Ht.
  unfold raw_times in Ht. apply in_scale_add in Ht.
  destruct Ht as [i [x [Hi [Hx ->]]]].
  apply hits_bounds in Hi.
  pose proof (upcoming_unit (advance g (Z.to_nat n)) (length (hits n p g))
                (unit_draws_advance g _ Hg)) as Hu.
  rewrite Forall_forall in Hu. destruct (Hu x Hx) as [Hx0 Hx1].
  pose proof (cell_width_positive n T Hn HT) as Hw.
  assert (Hi0 : (0 <= inject_Z i)%Q) by (unfold Qle; simpl; lia).
  split.
  - apply Qmult_le_0_compat; lra.
  - apply Qlt_le_trans with (inject_Z n * (T / inject_Z n))%Q.
    + apply Qmult_lt_compat_r; [exact Hw |].
      pose proof (inject_Z_lt_succ i n x 0) as H.
      rewrite Qplus_0_r in H. apply H; [lia | exact Hx1 | apply Qle_refl].
    + rewrite Qmult_div_r; [apply Qle_refl |].
      apply inject_Z_nonzero. lia.
Qed.

Lemma sort_raw_times (n : Z) (p T : Q) (g : Rng) :
  unit_draws g -> 0 < n -> (0 < T)%Q ->
  sort (raw_times n p T g) = raw_times n p T g.
Proof.
  intros Hg Hn HT.
  apply sort_in_order, increasing_nondecreasing, raw_times_increasing; auto.
Qed.

Lemma built_times (n : Z) (p T : Q) (g : Rng) :
  unit_draws g -> 0 < n -> (0 < T)%Q ->
  times (built n p T g) = raw_times n p T g.
Proof.
  intros Hg Hn HT. unfold built.
  destruct (truthy (hits n p g)) eqn:E; cbn [times].
  - now apply sort_raw_times.
  - pose proof (raw_times_length n p T g) as HL.
    destruct (hits n p g); [| discriminate E].
    destruct (raw_times n p T g); [reflexivity | discriminate HL].
Qed.

(** ** The claims about the realization builder *)

(** Every value of the demonstration generator lies in [0, 1). *)
Ltac demo_unit_draws :=
  let k := fresh "k" in
  let H := fresh "H" in
  intros k; unfold demo_rng, demo_draws; cbn [draws];
  pose proof (Nat.mod_upper_bound (7 * k + 3) 10) as H;
  unfold Qle, Qlt; cbn [Qnum Qden]; lia.

Lemma demo_draws_unit : unit_draws demo_rng.
Proof. demo_unit_draws. Qed.

(** C10. Fed the same draws in the same roles (n Bernoulli draws, then one
    jitter draw per hit in increasing index order), the scalar and the
    vectorised realization builders return the same value: the same hit
    indices, the same Realization and the same InterarrivalSequence, and they
    leave the generator in the same state. *)
Theorem C10_builders_agree (n : Z) (p T : Q) (g : Rng) :
  unit_draws g -> valid_parameters n p T ->
  NumPy.realization n p T g = PurePy.realization n p T g /\
  exists (r : Realization) (g' : Rng), PurePy.realization n p T g = Ok (r, g').
Proof.
  intros _ [_ [Hn _]]. split.
  - rewrite purepy_realization_run. apply numpy_realization_run. lia.
  - eexists; eexists. apply purepy_realization_run.
Qed.

Lemma C10_builders_agree_witness :
  NumPy.realization 4 (1 # 2) 1 demo_rng
  = PurePy.realization 4 (1 # 2) 1 demo_rng /\
  exists (r : Realization) (g' : Rng),
    PurePy.realization 4 (1 # 2) 1 demo_rng = Ok (r, g').
Proof.
  apply C10_builders_agree.
  - demo_unit_draws.
  - unfold valid_parameters, Qlt, Qle; simpl. lia.
Defined.

(** In exact arithmetic: for draws in [0, 1) and a valid configuration, the
    Realization that either script builds is strictly increasing, every
    timestamp lies in [0, T], and there are at most n of them.  Rounding
    breaks the first two properties, as the binary64 reading shows below. *)
Lemma exact_realization_invariant (n : Z) (p T : Q) (g : Rng) :
  unit_draws g -> valid_parameters n p T ->
  exists r : Realization,
    both_return n p T g r /\
    increasing (times r) /\
    Forall (fun t => 0 <= t /\ t <= T)%Q (times r) /\
    len (times r) <= n.
Proof.
  intros Hg [_ [Hn HT]]. exists (built n p T g).
  split; [apply both_return_built; lia |].
  rewrite built_times by (auto; lia).
  split; [apply raw_times_increasing; auto; lia |].
  split.
  - eapply Forall_impl; [| apply raw_times_bounds; auto; lia].
    intros t [H0 H1]. split; [exact H0 | now apply Qlt_le_weak].
  - unfold len. rewrite raw_times_length.
    pose proof (hits_length n p g). lia.
Qed.



(** ** The timestamps in binary64 *)

(** The largest draw [random.random()] can return: 1 - 2^-53. *)
Lemma largest_draw_below_one :
  (0x1.fffffffffffffp-1 <? 1)%float = true /\
  (1 + 0x1.fffffffffffffp-1 =? 2)%float = true.
Proof. split; vm_compute; reflexivity. Qed.

(** C3, on binary64.  With n = 4, T = 1, p = 1 and the jitter draws 0.5,
    1 - 2^-53, 0.0 and 0.5, each script returns the timestamps 0.125, 0.5,
    0.5, 0.875: the sum 1 + (1 - 2^-53) rounds to 2, the events of
    subintervals 1 and 2 coincide and the Realization is not strictly
    increasing.  With n = 25, T = 7, p = 0.5, a single hit in the last
    subinterval and the jitter draw 1 - 2^-53, each script returns a
    timestamp above T.  All draws are in [0, 1). *)
Theorem C3_binary64_timestamps :
  (let g := F64.delivering
              [0.5; 0.5; 0.5; 0.5; 0.5; 0x1.fffffffffffffp-1; 0; 0.5]%float in
   Forall (fun u => (0 <=? u)%float = true /\ (u <? 1)%float = true)
          (map (F64.draws g) (seq 0 8)) /\
   exists (r : F64.Realization) (g' : F64.Rng),
     F64.realization 4 1 1 g = Ok (r, g') /\
     F64.numpy_realization 4 1 1 g = Ok (r, g') /\
     F64.cursor g' = 8%nat /\
     F64.times r = [0.125; 0.5; 0.5; 0.875]%float /\
     ~ F64.increasing (F64.times r)) /\
  (let g := F64.delivering
              (repeat 0.75 24 ++ [0.25; 0x1.fffffffffffffp-1])%float in
   Forall (fun u => (0 <=? u)%float = true /\ (u <? 1)%float = true)
          (map (F64.draws g) (seq 0 26)) /\
   exists (r : F64.Realization) (g' : F64.Rng) (t : float),
     F64.realization 25 0.5 7 g = Ok (r, g') /\
     F64.numpy_realization 25 0.5 7 g = Ok (r, g') /\
     F64.cursor g' = 26%nat /\
     F64.indices r = [24] /\
     F64.times r = [t] /\ (7 <? t)%float = true).
Proof.
  split; cbv zeta.
  - split.
    { vm_compute. repeat constructor. }
    eexists; eexists.
    split; [vm_compute; reflexivity |].
    split; [vm_compute; reflexivity |].
    split; [reflexivity |].
    split; [reflexivity |].
    cbn [F64.times]. intros H.
    inversion H as [| a l Htail _]; subst.
    inversion Htail as [| b l' _ Hall]; subst.
    inversion Hall as [| c l'' Hlt _]; subst.
    vm_compute in Hlt. discriminate Hlt.
  - split.
    { vm_compute. repeat constructor. }
    eexists; eexists; eexists.
    split; [vm_compute; reflexivity |].
    split; [vm_compute; reflexivity |].
    split; [reflexivity |].
    split; [reflexivity |].
    split; [reflexivity |].
    vm_compute. reflexivity.
Qed.



(** ** The interarrival extractor *)

Lemma diff_length (l : list Q) :
  forall x : Q, length (NumPy.diff (x :: l)) = length l.
Proof.
  induction l as [| y l IH]; intros x; [reflexivity |].
  cbn [NumPy.diff length]. f_equal. apply IH.
Qed.

Lemma diff_nth (l : list Q) :
  forall (k : nat) (a b : Q),
    nth_error l k = Some a -> nth_error l (S k) = Some b ->
    nth_error (NumPy.diff l) k = Some (b - a)%Q.
Proof.
  induction l as [| x l IH]; intros k a b Ha Hb.
  - destruct k; discriminate Ha.
  - destruct l as [| y l]; [destruct k; discriminate Hb |].
    destruct k as [| k].
    + cbn in Ha, Hb |- *. now inversion Ha; inversion Hb; subst.
    + cbn [NumPy.diff nth_error]. apply IH; assumption.
Qed.

Lemma diff_gaps_of (ts : list Q) : gaps_of ts (NumPy.diff ([0%Q] ++ ts)).
Proof.
  cbn [app]. unfold gaps_of.
  split; [apply diff_length |].
  split.
  - pose proof (diff_length ts 0%Q) as HL.
    split; intros H.
    + rewrite H in HL. destruct ts; [reflexivity | discriminate HL].
    + now subst ts.
  - split.
    + intros t0 H0. exists (t0 - 0)%Q. split.
      * apply diff_nth; [reflexivity | exact H0].
      * ring.
    + intros k a b Ha Hb. exists (b - a)%Q. split; [| reflexivity].
      apply (diff_nth (0%Q :: ts) (S k)); assumption.
Qed.

(** The scalar extractor on the branch the script takes: [gaps] when there
    are events, the empty list otherwise. *)
Lemma purepy_gaps_of (ts : list Q) :
  exists ia : list Q,
    (if truthy ts then PurePy.gaps ts else Ok []) = Ok ia /\ gaps_of ts ia.
Proof.
  destruct ts as [| t0 ts]; cbn [truthy].
  - exists []. split; [reflexivity |]. apply (diff_gaps_of []).
  - exists (NumPy.diff ([0%Q] ++ t0 :: ts)).
    split; [apply gaps_run | apply diff_gaps_of].
Qed.

Lemma built_gaps_of (n : Z) (p T : Q) (g : Rng) :
  gaps_of (times (built n p T g)) (interarrivals (built n p T g)).
Proof.
  unfold built. destruct (truthy (hits n p g)); cbn [times interarrivals].
  - apply diff_gaps_of.
  - apply (diff_gaps_of []).
Qed.

(** C2. On every timestamp list the extractor of either script returns the
    gap sequence: gap[0] = timestamp[0], gap[k] = timestamp[k] -
    timestamp[k-1] for k >= 1, of the same length, empty exactly when the
    list is empty.  The vectorised extractor is [np.diff] after prepending
    0.0; the scalar one is the comprehension when there are events and the
    empty list otherwise, as the script branches.  The InterarrivalSequence
    that a run of either script stores is the gap sequence of the
    Realization it stores. *)
Theorem C2_interarrival_extractor (ts : list Q) (n : Z) (p T : Q) (g : Rng) :
  0 <= n ->
  gaps_of ts (NumPy.diff ([0%Q] ++ ts)) /\
  (exists ia : list Q,
      (if truthy ts then PurePy.gaps ts else Ok []) = Ok ia /\
      gaps_of ts ia) /\
  (exists r : Realization,
      both_return n p T g r /\ gaps_of (times r) (interarrivals r)).
Proof.
  intros Hn. split; [apply diff_gaps_of |].
  split; [apply purepy_gaps_of |].
  exists (built n p T g).
  split; [now apply both_return_built | apply built_gaps_of].
Qed.

Lemma C2_interarrival_extractor_witness :
  gaps_of [1 # 4; 1 # 2; 7 # 8] (NumPy.diff ([0%Q] ++ [1 # 4; 1 # 2; 7 # 8])) /\
  (exists ia : list Q,
      (if truthy [1 # 4; 1 # 2; 7 # 8]
       then PurePy.gaps [1 # 4; 1 # 2; 7 # 8] else Ok []) = Ok ia /\
      gaps_of [1 # 4; 1 # 2; 7 # 8] ia) /\
  (exists r : Realization,
      both_return 4 (1 # 2) 1 demo_rng r /\
      gaps_of (times r) (interarrivals r)).
Proof.
  apply (C2_interarrival_extractor [1 # 4; 1 # 2; 7 # 8] 4 (1 # 2) 1 demo_rng).
  lia.
Defined.

(** ** Sums *)

Lemma fold_left_Qplus_shift (l : list Q) :
  forall a : Q, (fold_left Qplus l a == a + fold_left Qplus l 0)%Q.
Proof.
  induction l as [| x l IH]; intros a; cbn [fold_left].
  - ring.
  - rewrite (IH (a + x)%Q), (IH (0 + x)%Q). ring.
Qed.

Lemma sum_float_cons (x : Q) (l : list Q) :
  (sum_float (x :: l) == x + sum_float l)%Q.
Proof.
  unfold sum_float. cbn [fold_left].
  rewrite fold_left_Qplus_shift. ring.
Qed.

Lemma last_cons (y : Q) (l : list Q) (x : Q) : last (y :: l) x = last l y.
Proof.
  revert x y. induction l as [| z l IH]; intros x y; [reflexivity |].
  change (last (y :: z :: l) x) with (last (z :: l) x).
  now rewrite (IH x z), (IH y z).
Qed.

(** Successive differences telescope. *)
Lemma diff_telescopes (l : list Q) :
  forall x : Q, (sum_float (NumPy.diff (x :: l)) == last l x - x)%Q.
Proof.
  induction l as [| y l IH]; intros x.
  - cbn. ring.
  - change (NumPy.diff (x :: y :: l))
      with ((y - x)%Q :: NumPy.diff (y :: l)).
    rewrite sum_float_cons, IH, last_cons. ring.
Qed.

Lemma interarrivals_telescope (ts : list Q) :
  (sum_float (NumPy.diff ([0%Q] ++ ts)) == last ts 0)%Q.
Proof. cbn [app]. rewrite diff_telescopes. ring. Qed.

(** C4. For every non-empty Realization the gaps that either script derives
    from it add up to its last timestamp; so do the gaps a run stores. *)
Theorem C4_telescoping_sum (ts : list Q) (n : Z) (p T : Q) (g : Rng) :
  ts <> [] -> 0 <= n ->
  (sum_float (NumPy.diff ([0%Q] ++ ts)) == last ts 0)%Q /\
  (exists ia : list Q,
      PurePy.gaps ts = Ok ia /\ (sum_float ia == last ts 0)%Q) /\
  (exists r : Realization,
      both_return n p T g r /\
      (times r <> [] ->
       (sum_float (interarrivals r) == last (times r) 0)%Q)).
Proof.
  intros Hts Hn. split; [apply interarrivals_telescope |].
  split.
  - destruct ts as [| t0 ts]; [contradiction |].
    exists (NumPy.diff ([0%Q] ++ t0 :: ts)).
    split; [apply gaps_run | apply interarrivals_telescope].
  - exists (built n p T g). split; [now apply both_return_built |].
    unfold built. destruct (truthy (hits n p g)); cbn [times interarrivals].
    + intros _. apply interarrivals_telescope.
    + intros H. now contradiction H.
Qed.

Lemma C4_telescoping_sum_witness :
  (sum_float (NumPy.diff ([0%Q] ++ [1 # 4; 1 # 2; 7 # 8]))
   == last [1 # 4; 1 # 2; 7 # 8] 0)%Q /\
  (exists ia : list Q,
      PurePy.gaps [1 # 4; 1 # 2; 7 # 8] = Ok ia /\
      (sum_float ia == last [1 # 4; 1 # 2; 7 # 8] 0)%Q) /\
  (exists r : Realization,
      both_return 4 (1 # 2) 1 demo_rng r /\
      (times r <> [] ->
       (sum_float (interarrivals r) == last (times r) 0)%Q)).
Proof.
  apply (C4_telescoping_sum [1 # 4; 1 # 2; 7 # 8] 4 (1 # 2) 1 demo_rng).
  - discriminate.
  - lia.
Defined.

(** ** The boundary probabilities *)

Lemma counts_loop_run (n : Z) (p : Q) (m : nat) :
  forall (a : Z) (acc : list Z) (g : Rng),
    for_each (map (fun k => a + Z.of_nat k) (seq 0 m))
      (fun (_ : Z) counts =>
         c <- for_each (range n)
                (fun (_ : Z) c =>
                   u <- random ;; ret (if Qltb u p then c + 1 else c))
                0 ;;
         ret (counts ++ [c]))
      acc g
    = Ok (acc ++ round_counts m (Z.to_nat n) p g,
          advance g (m * Z.to_nat n)).
Proof.
  induction m as [| m IH]; intros a acc g.
  - cbn. unfold ret. now rewrite app_nil_r, advance_0.
  - rewrite seq_map_succ. cbn [for_each round_counts].
    erewrite bind_run; cycle 1.
    { erewrite bind_run; cycle 1.
      { unfold range. rewrite range2_unfold, Z.sub_0_r.
        apply count_loop_run. }
      reflexivity. }
    rewrite (map_ext (fun k => a + Z.of_nat (S k))
                     (fun k => (a + 1) + Z.of_nat k)) by (intros; lia).
    rewrite IH, advance_advance, <- app_assoc. reflexivity.
Qed.

Lemma simulate_counts_run (trials n : Z) (p : Q) (g : Rng) :
  PurePy.simulate_counts trials n p g
  = Ok (round_counts (Z.to_nat trials) (Z.to_nat n) p g,
        advance g (Z.to_nat trials * Z.to_nat n)).
Proof.
  unfold PurePy.simulate_counts. unfold range at 1.
  rewrite range2_unfold, Z.sub_0_r. apply counts_loop_run.
Qed.

Lemma round_counts_length (m k : nat) (p : Q) :
  forall g : Rng, length (round_counts m k p g) = m.
Proof.
  induction m as [| m IH]; intros g; cbn [round_counts length]; auto.
Qed.

Lemma filter_none (p : Q) (us : list Q) :
  Forall (fun u => Qltb u p = false) us ->
  filter (fun u => Qltb u p) us = [].
Proof.
  induction 1 as [| u us Hu _ IH]; [reflexivity |].
  cbn [filter]. now rewrite Hu.
Qed.

Lemma filter_all (p : Q) (us : list Q) :
  Forall (fun u => Qltb u p = true) us ->
  filter (fun u => Qltb u p) us = us.
Proof.
  induction 1 as [| u us Hu _ IH]; [reflexivity |].
  cbn [filter]. now rewrite Hu, IH.
Qed.

Lemma nonzero_none (p : Q) (us : list Q) :
  Forall (fun u => Qltb u p = false) us ->
  forall a : Z, NumPy.nonzero_from a (NumPy.less us p) = [].
Proof.
  induction 1 as [| u us Hu _ IH]; intros a; [reflexivity |].
  cbn [NumPy.less map NumPy.nonzero_from]. rewrite Hu. apply IH.
Qed.

Lemma nonzero_all (p : Q) (us : list Q) :
  Forall (fun u => Qltb u p = true) us ->
  forall a : Z,
    NumPy.nonzero_from a (NumPy.less us p)
    = map (fun k => a + Z.of_nat k) (seq 0 (length us)).
Proof.
  induction 1 as [| u us Hu _ IH]; intros a; [reflexivity |].
  cbn [NumPy.less map NumPy.nonzero_from length]. rewrite Hu.
  rewrite seq_map_succ. f_equal; [simpl; lia |].
  fold (NumPy.less us p). rewrite IH. apply map_ext. intros; lia.
Qed.

Lemma below_zero_never (p : Q) (g : Rng) (m : nat) :
  unit_draws g -> (p == 0)%Q ->
  Forall (fun u => Qltb u p = false) (upcoming g m).
Proof.
  intros Hg Hp. eapply Forall_impl; [| apply upcoming_unit, Hg].
  intros u [H0 _]. apply Qltb_ge. rewrite Hp. exact H0.
Qed.

Lemma below_one_always (p : Q) (g : Rng) (m : nat) :
  unit_draws g -> (p == 1)%Q ->
  Forall (fun u => Qltb u p = true) (upcoming g m).
Proof.
  intros Hg Hp. eapply Forall_impl; [| apply upcoming_unit, Hg].
  intros u [_ H1]. apply Qltb_lt. rewrite Hp. exact H1.
Qed.

Lemma round_counts_zero (p : Q) (m k : nat) :
  (p == 0)%Q ->
  forall g : Rng, unit_draws g ->
    Forall (fun c => c = 0) (round_counts m k p g).
Proof.
  intros Hp. induction m as [| m IH]; intros g Hg; cbn [round_counts].
  - constructor.
  - constructor; [| apply IH, unit_draws_advance, Hg].
    now rewrite filter_none by (now apply below_zero_never).
Qed.

Lemma round_counts_full (p : Q) (m k : nat) :
  (p == 1)%Q ->
  forall g : Rng, unit_draws g ->
    Forall (fun c => c = Z.of_nat k) (round_counts m k p g).
Proof.
  intros Hp. induction m as [| m IH]; intros g Hg; cbn [round_counts].
  - constructor.
  - constructor; [| apply IH, unit_draws_advance, Hg].
    rewrite filter_all by (now apply below_one_always).
    unfold len. now rewrite upcoming_length.
Qed.

Lemma hits_none (n : Z) (p : Q) (g : Rng) :
  unit_draws g -> (p == 0)%Q -> hits n p g = [].
Proof.
  intros Hg Hp. unfold hits, NumPy.nonzero.
  apply nonzero_none. now apply below_zero_never.
Qed.

Lemma hits_all (n : Z) (p : Q) (g : Rng) :
  unit_draws g -> (p == 1)%Q ->
  hits n p g = map Z.of_nat (seq 0 (Z.to_nat n)).
Proof.
  intros Hg Hp. unfold hits, NumPy.nonzero.
  rewrite nonzero_all by (now apply below_one_always).
  now rewrite upcoming_length.
Qed.

(** C5, on binary64.  With p = 1, n = 4, T = 1 and the jitter draws 0.5,
    1 - 2^-53, 0.0 and 0.5 every subinterval is a hit and each script
    returns four timestamps, yet none of them lies inside subinterval 1,
    [0.25, 0.5): its event is placed at 0.5, the lower edge of subinterval
    2, which so holds two. *)
Theorem C5_binary64_empty_cell :
  let g := F64.delivering
             [0.5; 0.5; 0.5; 0.5; 0.5; 0x1.fffffffffffffp-1; 0; 0.5]%float in
  let w := (1 / F64.to_float 4)%float in
  exists (r : F64.Realization) (g' : F64.Rng),
    F64.realization 4 1 1 g = Ok (r, g') /\
    F64.numpy_realization 4 1 1 g = Ok (r, g') /\
    F64.indices r = [0; 1; 2; 3] /\
    length (F64.times r) = 4%nat /\
    (F64.to_float 1 * w = 0.25)%float /\
    (F64.to_float 2 * w = 0.5)%float /\
    (F64.to_float 3 * w = 0.75)%float /\
    filter (fun t => (0.25 <=? t)%float && (t <? 0.5)%float) (F64.times r)
    = [] /\
    filter (fun t => (0.5 <=? t)%float && (t <? 0.75)%float) (F64.times r)
    = [0.5; 0.5]%float.
Proof.
  cbv zeta. eexists; eexists.
  split; [vm_compute; reflexivity |].
  split; [vm_compute; reflexivity |].
  repeat split; vm_compute; reflexivity.
Qed.

(** ** The statistics summarizer *)

Lemma sum_float_fold_right (xs : list Q) :
  (sum_float xs == fold_right Qplus 0 xs)%Q.
Proof.
  induction xs as [| x xs IH]; [reflexivity |].
  rewrite sum_float_cons, IH. reflexivity.
Qed.

Lemma fold_left_Zplus_shift (l : list Z) :
  forall a : Z, fold_left Z.add l a = a + fold_left Z.add l 0.
Proof.
  induction l as [| x l IH]; intros a; cbn [fold_left]; [lia |].
  rewrite (IH (a + x)), (IH (0 + x)). lia.
Qed.

Lemma sum_int_inject (zs : list Z) :
  (inject_Z (sum_int zs) == fold_right Qplus 0 (map inject_Z zs))%Q.
Proof.
  induction zs as [| z zs IH]; [reflexivity |].
  unfold sum_int in *. cbn [fold_left map fold_right].
  rewrite fold_left_Zplus_shift, inject_Z_plus, IH.
  cbn [Z.add]. reflexivity.
Qed.

Lemma sum_squares_fold_right (m m' : Q) (xs : list Q) :
  (m == m')%Q ->
  (sum_float (map (fun x => (x - m) ^ 2) xs)
   == fold_right Qplus 0 (map (fun x => (x - m') * (x - m')) xs))%Q.
Proof.
  intros Hm. rewrite sum_float_fold_right.
  induction xs as [| x xs IH]; [reflexivity |].
  cbn [map fold_right]. rewrite IH, Hm.
  apply Qplus_comp; [| reflexivity].
  change ((x - m') ^ 2)%Q with ((x - m') * (x - m'))%Q. reflexivity.
Qed.

Lemma len_nonzero {A : Type} (l : list A) :
  l <> [] -> ~ (inject_Z (len l) == 0)%Q.
Proof.
  intros H. apply inject_Z_nonzero. unfold len.
  destruct l; [contradiction | simpl; lia].
Qed.

(** What the scalar script computes for the counts. *)
Lemma purepy_count_stats (counts : list Z) :
  counts <> [] ->
  exists m v : Q,
    PurePy.mean_of_counts counts = Ok m /\
    PurePy.var_of_counts counts m = Ok v /\
    (m == population_mean (map inject_Z counts))%Q /\
    (v == population_variance (map inject_Z counts))%Q.
Proof.
  intros H. pose proof (len_nonzero counts H) as HN.
  assert (Hm : (inject_Z (sum_int counts) / inject_Z (len counts)
                == population_mean (map inject_Z counts))%Q).
  { unfold population_mean, len. now rewrite length_map, sum_int_inject. }
  eexists; eexists.
  split; [apply truediv_ok, HN |].
  split; [apply truediv_ok, HN |].
  split; [exact Hm |].
  unfold population_variance.
  rewrite <- (map_map inject_Z (fun q => (q - _) ^ 2)%Q).
  rewrite (sum_squares_fold_right _ _ _ Hm).
  unfold len. now rewrite length_map.
Qed.

(** What the scalar script computes for a non-empty gap sequence. *)
Lemma purepy_interarrival_stats (ia : list Q) :
  ia <> [] ->
  exists m v : Q,
    PurePy.interarrival_stats ia = Ok (Some m, Some v) /\
    (m == population_mean ia)%Q /\ (v == population_variance ia)%Q.
Proof.
  intros H. pose proof (len_nonzero ia H) as HN.
  assert (Hm : (sum_float ia / inject_Z (len ia) == population_mean ia)%Q).
  { unfold population_mean, len. now rewrite sum_float_fold_right. }
  exists (sum_float ia / inject_Z (len ia))%Q.
  eexists. unfold PurePy.interarrival_stats.
  destruct ia as [| x ia]; [contradiction |]. cbn [truthy].
  rewrite (truediv_ok _ _ HN). cbn [rbind].
  rewrite (truediv_ok _ _ HN). cbn [rbind].
  split; [reflexivity |]. split; [exact Hm |].
  unfold population_variance.
  now rewrite (sum_squares_fold_right _ _ _ Hm).
Qed.

(** What NumPy's reductions return on a non-empty array. *)
Lemma numpy_stats (a : list Q) :
  a <> [] ->
  exists m v : Q,
    NumPy.mean a = Finite m /\ NumPy.var 0 a = Finite v /\
    (m == population_mean a)%Q /\ (v == population_variance a)%Q.
Proof.
  intros H.
  assert (Hm : (sum_float a / inject_Z (len a) == population_mean a)%Q).
  { unfold population_mean, len. now rewrite sum_float_fold_right. }
  assert (Hmean : NumPy.mean a = Finite (sum_float a / inject_Z (len a)))
    by (destruct a; [contradiction | reflexivity]).
  exists (sum_float a / inject_Z (len a))%Q. eexists.
  split; [exact Hmean |].
  unfold NumPy.var. rewrite Hmean.
  assert (Hr : Z.max (len a - 0) 0 = len a) by (unfold len; lia).
  rewrite Hr.
  destruct (len a =? 0) eqn:E.
  { apply Z.eqb_eq in E. unfold len in E. destruct a; [contradiction |].
    simpl in E. lia. }
  split; [reflexivity |]. split; [exact Hm |].
  unfold population_variance.
  now rewrite (sum_squares_fold_right _ _ _ Hm).
Qed.

(** C6, as stated, fails on binary64.  The gaps of the timestamps 2^700 and
    2^702 are 2^700 and 3 * 2^700, a non-empty InterarrivalSequence; their
    mean is 2^701 and the square of the first deviation leaves the float
    range: the scalar script stops with an OverflowError at line 54 and
    computes no variance at all. *)
Lemma C6_binary64_overflow :
  F64.gaps [0x1p700; 0x1p702]%float = Ok [0x1p700; 0x1.8p701]%float /\
  F64.interarrival_stats [0x1p700; 0x1.8p701]%float = Raise OverflowError.
Proof. split; vm_compute; reflexivity. Qed.

(** On gaps of ordinary size the same lines divide by the count: the
    variance of 0.25 and 0.5 is 0.015625 = 0.03125 / 2. *)
Example binary64_variance_divides_by_count :
  F64.interarrival_stats [0.25; 0.5]%float
  = Ok (Some 0.375%float, Some 0.015625%float).
Proof. vm_compute. reflexivity. Qed.

(** C6, amended.  On a non-empty CountSample with counts between 0 and 2^53
    and a non-empty InterarrivalSequence with gaps between 0 and 2^400
    (where no square can leave the float range), both scripts compute the
    population mean and the population variance (the squared deviations
    from the mean, summed, over the element count), each float operation
    read as exact; on an empty InterarrivalSequence both mark the two
    statistics absent ([None]), not zero and not NaN. *)
Theorem C6_population_statistics (counts : list Z) (ia : list Q) :
  counts <> [] -> ia <> [] ->
  Forall (fun c => 0 <= c <= 2 ^ 53) counts ->
  Forall (fun x => 0 <= x /\ x <= inject_Z (2 ^ 400))%Q ia ->
  (exists m v : Q,
      PurePy.mean_of_counts counts = Ok m /\
      PurePy.var_of_counts counts m = Ok v /\
      (m == population_mean (map inject_Z counts))%Q /\
      (v == population_variance (map inject_Z counts))%Q) /\
  (exists m v : Q,
      PurePy.interarrival_stats ia = Ok (Some m, Some v) /\
      (m == population_mean ia)%Q /\ (v == population_variance ia)%Q) /\
  PurePy.interarrival_stats [] = Ok (None, None) /\
  (exists m v : Q,
      NumPy.mean (map inject_Z counts) = Finite m /\
      NumPy.var 0 (map inject_Z counts) = Finite v /\
      (m == population_mean (map inject_Z counts))%Q /\
      (v == population_variance (map inject_Z counts))%Q) /\
  (exists m v : Q,
      NumPy.interarrival_stats ia = (Some (Finite m), Some (Finite v)) /\
      (m == population_mean ia)%Q /\ (v == population_variance ia)%Q) /\
  NumPy.interarrival_stats [] = (None, None).
Proof.
  intros Hc Hia _ _.
  split; [now apply purepy_count_stats |].
  split; [now apply purepy_interarrival_stats |].
  split; [reflexivity |].
  split.
  { apply numpy_stats. destruct counts; [contradiction | discriminate]. }
  split; [| reflexivity].
  destruct (numpy_stats ia Hia) as [m [v [Hm [Hv [Em Ev]]]]].
  exists m, v. split; [| now split].
  unfold NumPy.interarrival_stats. rewrite <- truthy_length.
  destruct ia; [contradiction |]. cbn [truthy]. now rewrite Hm, Hv.
Qed.

Lemma C6_population_statistics_witness :
  (exists m v : Q,
      PurePy.mean_of_counts [1; 3] = Ok m /\
      PurePy.var_of_counts [1; 3] m = Ok v /\
      (m == population_mean (map inject_Z [1; 3]%Z))%Q /\
      (v == population_variance (map inject_Z [1; 3]%Z))%Q) /\
  (exists m v : Q,
      PurePy.interarrival_stats [1 # 4; 3 # 4] = Ok (Some m, Some v) /\
      (m == population_mean [1 # 4; 3 # 4])%Q /\
      (v == population_variance [1 # 4; 3 # 4])%Q) /\
  PurePy.interarrival_stats [] = Ok (None, None) /\
  (exists m v : Q,
      NumPy.mean (map inject_Z [1; 3]%Z) = Finite m /\
      NumPy.var 0 (map inject_Z [1; 3]%Z) = Finite v /\
      (m == population_mean (map inject_Z [1; 3]%Z))%Q /\
      (v == population_variance (map inject_Z [1; 3]%Z))%Q) /\
  (exists m v : Q,
      NumPy.interarrival_stats [1 # 4; 3 # 4]
      = (Some (Finite m), Some (Finite v)) /\
      (m == population_mean [1 # 4; 3 # 4])%Q /\
      (v == population_variance [1 # 4; 3 # 4])%Q) /\
  NumPy.interarrival_stats [] = (None, None).
Proof.
  apply (C6_population_statistics [1; 3] [1 # 4; 3 # 4]).
  - discriminate.
  - discriminate.
  - repeat constructor; apply Z.leb_le; reflexivity.
  - repeat constructor; apply Qle_bool_iff; reflexivity.
Defined.

(** The counts 1 and 3 have mean 2 and variance 1 in both scripts; dividing
    by the count minus one would give 2. *)
Example variance_divides_by_count :
  PurePy.mean_of_counts [1; 3] = Ok (4 # 2) /\
  (exists v : Q, PurePy.var_of_counts [1; 3] (4 # 2) = Ok v /\ (v == 1)%Q) /\
  (exists v : Q,
      NumPy.var 0 (map inject_Z [1; 3]%Z) = Finite v /\ (v == 1)%Q).
Proof.
  split; [reflexivity |].
  split; eexists; (split; [reflexivity | reflexivity]).
Qed.

(** ** The summary record *)

Lemma lookup_In (key : string) (d : pydict) (v : pyval) :
  lookup key d = Some v -> In v (map snd d).
Proof.
  induction d as [| [k w] d IH]; cbn [lookup map snd]; [discriminate |].
  destruct (String.eqb key k).
  - intros [= ->]. now left.
  - intros H. right. now apply IH.
Qed.

Lemma purepy_summary_fields (T lam : Q) (n : Z) (p : Q) (trials : Z)
    (mean_count var_count : Q) (ts : list Q) :
  summary_fields (PurePy.summary T lam n p trials mean_count var_count ts)
                 T lam n p trials (Finite mean_count) (Finite var_count)
                 (len ts).
Proof. unfold summary_fields. repeat split. Qed.

Lemma numpy_summary_fields (T lam : Q) (n : Z) (p : Q) (trials : Z)
    (mean_count var_count : pyfloat) (ts : list Q) :
  summary_fields (NumPy.summary T lam n p trials mean_count var_count ts)
                 T lam n p trials mean_count var_count (len ts).
Proof. unfold summary_fields. repeat split. Qed.

Lemma purepy_interarrival_stats_total (ia : list Q) :
  exists s : option Q * option Q, PurePy.interarrival_stats ia = Ok s.
Proof.
  destruct ia as [| x ia].
  - now exists (None, None).
  - destruct (purepy_interarrival_stats (x :: ia)) as [m [v [H _]]];
      [discriminate |].
    now exists (Some m, Some v).
Qed.

(** A run of the scalar script on a configuration with [n <> 0] and at least
    one trial, in exact arithmetic: it raises nothing, and this is what it
    leaves behind. *)
Lemma purepy_main_record (seeded : Z -> nat -> Q) (ps : ParameterSet)
    (g0 : Rng) :
  ps_n ps <> 0 -> 1 <= ps_trials ps ->
  exists (run : PurePy.Run) (g' : Rng),
    PurePy.main seeded ps g0 = Ok (run, g') /\
    PurePy.p run = (ps_lam ps * ps_T ps / inject_Z (ps_n ps))%Q /\
    PurePy.mean_of_counts (PurePy.counts run) = Ok (PurePy.mean_count run) /\
    PurePy.var_of_counts (PurePy.counts run) (PurePy.mean_count run)
    = Ok (PurePy.var_count run) /\
    PurePy.interarrival_stats (interarrivals (PurePy.event run))
    = Ok (PurePy.mean_ia run, PurePy.var_ia run) /\
    summary_fields (PurePy.out run) (ps_T ps) (ps_lam ps) (ps_n ps)
                   (PurePy.p run) (ps_trials ps)
                   (Finite (PurePy.mean_count run))
                   (Finite (PurePy.var_count run))
                   (len (times (PurePy.event run))).
Proof.
  intros Hn Htr. unfold PurePy.main. cbv zeta.
  erewrite bind_run
    by (apply lift_run, truediv_ok, inject_Z_nonzero, Hn).
  erewrite bind_run by reflexivity.
  erewrite bind_run by apply simulate_counts_run.
  erewrite bind_run by apply purepy_realization_run.
  set (p := (ps_lam ps * ps_T ps / inject_Z (ps_n ps))%Q).
  set (g1 := mkRng (seeded (ps_seed ps)) 0).
  set (cs := round_counts (Z.to_nat (ps_trials ps)) (Z.to_nat (ps_n ps)) p g1).
  set (ev := built (ps_n ps) p (ps_T ps) _).
  assert (Hcs : cs <> []).
  { intros E. pose proof (round_counts_length (Z.to_nat (ps_trials ps))
                            (Z.to_nat (ps_n ps)) p g1) as HL.
    fold cs in HL. rewrite E in HL. simpl in HL. lia. }
  destruct (purepy_count_stats cs Hcs) as [m [v [Hm [Hv _]]]].
  destruct (purepy_interarrival_stats_total (interarrivals ev)) as [[a b] Hs].
  erewrite bind_run by (apply lift_run, Hm).
  erewrite bind_run by (apply lift_run, Hv).
  erewrite bind_run by (apply lift_run, Hs).
  unfold ret. eexists; eexists. split; [reflexivity |].
  cbn [PurePy.p PurePy.counts PurePy.event PurePy.mean_count PurePy.var_count
       PurePy.mean_ia PurePy.var_ia PurePy.out fst snd].
  do 4 (split; [first [reflexivity | assumption] |]).
  apply purepy_summary_fields.
Qed.

(** A run of the vectorised script, given what NumPy's binomial sampler
    returns after the seeding. *)
Lemma numpy_main_record (seeded : Z -> nat -> Q)
    (binomial : Z -> Q -> Z -> M (list Z)) (ps : ParameterSet) (g0 : Rng)
    (cs : list Z) (g1 : Rng) :
  1 <= ps_n ps ->
  binomial (ps_n ps) (ps_lam ps * ps_T ps / inject_Z (ps_n ps))%Q
           (ps_trials ps) (mkRng (seeded (ps_seed ps)) 0) = Ok (cs, g1) ->
  exists (run : NumPy.Run) (g' : Rng),
    NumPy.main seeded binomial ps g0 = Ok (run, g') /\
    NumPy.p run = (ps_lam ps * ps_T ps / inject_Z (ps_n ps))%Q /\
    NumPy.counts run = cs /\
    NumPy.mean_count run = NumPy.mean (map inject_Z cs) /\
    NumPy.var_count run = NumPy.var 0 (map inject_Z cs) /\
    NumPy.interarrival_stats (interarrivals (NumPy.event run))
    = (NumPy.mean_ia run, NumPy.var_ia run) /\
    summary_fields (NumPy.out run) (ps_T ps) (ps_lam ps) (ps_n ps)
                   (NumPy.p run) (ps_trials ps)
                   (NumPy.mean_count run) (NumPy.var_count run)
                   (len (times (NumPy.event run))).
Proof.
  intros Hn Hb. unfold NumPy.main. cbv zeta.
  erewrite bind_run
    by (apply lift_run, truediv_ok, inject_Z_nonzero; lia).
  erewrite bind_run by reflexivity.
  erewrite bind_run by exact Hb.
  erewrite bind_run by (apply numpy_realization_run; lia).
  unfold ret. eexists; eexists. split; [reflexivity |].
  cbn [NumPy.p NumPy.counts NumPy.event NumPy.mean_count NumPy.var_count
       NumPy.mean_ia NumPy.var_ia NumPy.out].
  do 5 (split; [first [reflexivity | apply surjective_pairing] |]).
  apply numpy_summary_fields.
Qed.

(** Refutes that a field of a concrete dictionary holds a concrete value. *)
Ltac no_such_field :=
  let key := fresh "key" in
  let v := fresh "v" in
  let Hl := fresh "Hl" in
  let Hs := fresh "Hs" in
  intros [key [v [Hl Hs]]];
  apply lookup_In in Hl; vm_compute in Hl;
  repeat (destruct Hl as [Hl | Hl]; [subst v; vm_compute in Hs |]);
  first [contradiction | discriminate].

(** C1, as stated, fails.  On the configuration T = 1, lambda = 3, n = 6,
    trials = 3 the scalar script finds three events, computes an
    interarrival mean and variance, and writes a record none of whose fields
    holds the interarrival mean, the interarrival variance or 1/lambda.  With
    lambda = 0 it finds no event, the two statistics are [None], and no
    field of the record holds the absent-marker. *)
Lemma C1_record_lacks_interarrival_fields :
  (exists (run : PurePy.Run) (g' : Rng),
      PurePy.main (fun _ => demo_draws) demo_parameters demo_rng
      = Ok (run, g') /\
      len (times (PurePy.event run)) = 3 /\
      PurePy.mean_ia run <> None /\
      PurePy.var_ia run <> None /\
      length (PurePy.out run) = 10%nat /\
      ~ carries (PurePy.out run) (stat_value (PurePy.mean_ia run)) /\
      ~ carries (PurePy.out run) (stat_value (PurePy.var_ia run)) /\
      ~ carries (PurePy.out run)
          (PyFloat (Finite (1 / ps_lam demo_parameters))) /\
      ~ carries_interarrival_fields (PurePy.out run) (PurePy.mean_ia run)
          (PurePy.var_ia run) (ps_lam demo_parameters)) /\
  (exists (run : PurePy.Run) (g' : Rng),
      PurePy.main (fun _ => demo_draws) silent_parameters demo_rng
      = Ok (run, g') /\
      times (PurePy.event run) = [] /\
      PurePy.mean_ia run = None /\
      PurePy.var_ia run = None /\
      length (PurePy.out run) = 10%nat /\
      ~ carries (PurePy.out run) (stat_value (PurePy.mean_ia run))).
Proof.
  split.
  - eexists; eexists. split; [vm_compute; reflexivity |].
    split; [reflexivity |].
    split; [discriminate |].
    split; [discriminate |].
    split; [reflexivity |].
    assert (H1 : ~ carries
                   (PurePy.summary 1 3 6 (3 # 6) 3 (10 # 3) (486 # 2187)
                                   [21 # 60; 38 # 60; 55 # 60])
                   (PyFloat (Finite (712800000 # 2332800000))))
      by no_such_field.
    split; [exact H1 |].
    split; [no_such_field |].
    split; [no_such_field |].
    intros [H _]. exact (H1 H).
  - eexists; eexists. split; [vm_compute; reflexivity |].
    do 4 (split; [reflexivity |]).
    no_such_field.
Qed.


(** ** Seeding *)

(** Each script seeds the generator before its first draw: the run does not
    depend on the state the generator was in when the process started. *)
Lemma seeding_resets_generator (seeded : Z -> nat -> Q)
    (binomial : Z -> Q -> Z -> M (list Z)) (ps : ParameterSet)
    (g g' : Rng) :
  PurePy.main seeded ps g = PurePy.main seeded ps g' /\
  NumPy.main seeded binomial ps g = NumPy.main seeded binomial ps g'.
Proof.
  split.
  - unfold PurePy.main. cbv zeta. unfold bind at 1 3.
    unfold lift. destruct (truediv _ _); reflexivity.
  - unfold NumPy.main. cbv zeta. unfold bind at 1 3.
    unfold lift. destruct (truediv _ _); reflexivity.
Qed.


(** ** Failure modes *)

(** With [n = 0] both scripts stop at [p = lam * T / n]. *)
Lemma main_zero_subintervals (seeded : Z -> nat -> Q)
    (binomial : Z -> Q -> Z -> M (list Z)) (ps : ParameterSet) (g : Rng) :
  ps_n ps = 0 ->
  PurePy.main seeded ps g = Raise ZeroDivisionError /\
  NumPy.main seeded binomial ps g = Raise ZeroDivisionError.
Proof.
  intros Hn.
  assert (H : lift (truediv (ps_lam ps * ps_T ps) (inject_Z (ps_n ps))) g
              = Raise ZeroDivisionError).
  { unfold lift. rewrite truediv_zero; [reflexivity |].
    rewrite Hn. reflexivity. }
  split.
  - unfold PurePy.main. cbv zeta. now apply bind_raise.
  - unfold NumPy.main. cbv zeta. now apply bind_raise.
Qed.

(** Without a trial the scalar script stops at [sum(counts) / len(counts)]. *)
Lemma purepy_main_no_trials (seeded : Z -> nat -> Q) (ps : ParameterSet)
    (g : Rng) :
  ps_n ps <> 0 -> ps_trials ps <= 0 ->
  PurePy.main seeded ps g = Raise ZeroDivisionError.
Proof.
  intros Hn Htr. unfold PurePy.main. cbv zeta.
  erewrite bind_run
    by (apply lift_run, truediv_ok, inject_Z_nonzero, Hn).
  erewrite bind_run by reflexivity.
  erewrite bind_run by apply simulate_counts_run.
  erewrite bind_run by apply purepy_realization_run.
  apply bind_raise.
  replace (Z.to_nat (ps_trials ps)) with 0%nat by lia.
  reflexivity.
Qed.

(** ** Runs that reach the end *)

(** A run of the scalar script that reaches the end had a non-zero n and at
    least one trial. *)
Lemma purepy_main_inv (seeded : Z -> nat -> Q) (ps : ParameterSet)
    (g0 : Rng) (run : PurePy.Run) (g' : Rng) :
  PurePy.main seeded ps g0 = Ok (run, g') ->
  ps_n ps <> 0 /\ 1 <= ps_trials ps.
Proof.
  intros E.
  assert (Hn : ps_n ps <> 0).
  { intros Hn.
    destruct (main_zero_subintervals seeded (fun _ _ _ => ret []) ps g0 Hn)
      as [H _].
    rewrite H in E. discriminate E. }
  split; [exact Hn |].
  destruct (Z_le_gt_dec (ps_trials ps) 0) as [Htr | Htr]; [| lia].
  rewrite (purepy_main_no_trials seeded ps g0 Hn Htr) in E. discriminate E.
Qed.

(** A run of the vectorised script that reaches the end had n >= 1, and its
    counts are the ones NumPy's sampler returned. *)
Lemma numpy_main_inv (seeded : Z -> nat -> Q)
    (binomial : Z -> Q -> Z -> M (list Z)) (ps : ParameterSet) (g0 : Rng)
    (run : NumPy.Run) (g' : Rng) :
  NumPy.main seeded binomial ps g0 = Ok (run, g') ->
  1 <= ps_n ps /\
  exists (cs : list Z) (g1 : Rng),
    binomial (ps_n ps) (ps_lam ps * ps_T ps / inject_Z (ps_n ps))%Q
             (ps_trials ps) (mkRng (seeded (ps_seed ps)) 0) = Ok (cs, g1).
Proof.
  intros E.
  assert (Hn : ps_n ps <> 0).
  { intros Hn.
    destruct (main_zero_subintervals seeded binomial ps g0 Hn) as [_ H].
    rewrite H in E. discriminate E. }
  unfold NumPy.main in E. cbv zeta in E.
  erewrite bind_run in E
    by (apply lift_run, truediv_ok, inject_Z_nonzero, Hn).
  erewrite bind_run in E by reflexivity.
  destruct (binomial (ps_n ps)
              (ps_lam ps * ps_T ps / inject_Z (ps_n ps))%Q (ps_trials ps)
              (mkRng (seeded (ps_seed ps)) 0)) as [[cs g1] | e] eqn:Hb.
  - split; [| now exists cs, g1].
    destruct (Z_lt_ge_dec (ps_n ps) 0) as [Hneg | Hpos]; [| lia].
    erewrite bind_run in E by exact Hb.
    erewrite bind_raise in E by (apply numpy_realization_negative, Hneg).
    discriminate E.
  - erewrite bind_raise in E by exact Hb. discriminate E.
Qed.

(** C1, amended.  Whenever a run of either script reaches the
    serialization, the record it writes has exactly ten fields: the echoed
    T, lambda, n, p and trials, the empirical mean and variance of the
    counts, theor_mean and theor_var both equal to lambda*T, and the
    realization event count equal to the length of the Realization.  The
    interarrival mean and variance have been computed by then, but the
    record has no field for them, nor for 1/lambda.  For the vectorised
    script the count sample is whatever NumPy's binomial sampler
    returned. *)
Theorem C1_summary_record (seeded : Z -> nat -> Q)
    (binomial : Z -> Q -> Z -> M (list Z)) (ps : ParameterSet) (g0 : Rng) :
  (forall (run : PurePy.Run) (g' : Rng),
      PurePy.main seeded ps g0 = Ok (run, g') ->
      PurePy.p run = (ps_lam ps * ps_T ps / inject_Z (ps_n ps))%Q /\
      PurePy.mean_of_counts (PurePy.counts run)
      = Ok (PurePy.mean_count run) /\
      PurePy.var_of_counts (PurePy.counts run) (PurePy.mean_count run)
      = Ok (PurePy.var_count run) /\
      PurePy.interarrival_stats (interarrivals (PurePy.event run))
      = Ok (PurePy.mean_ia run, PurePy.var_ia run) /\
      summary_fields (PurePy.out run) (ps_T ps) (ps_lam ps) (ps_n ps)
                     (PurePy.p run) (ps_trials ps)
                     (Finite (PurePy.mean_count run))
                     (Finite (PurePy.var_count run))
                     (len (times (PurePy.event run)))) /\
  (forall (run : NumPy.Run) (g' : Rng),
      NumPy.main seeded binomial ps g0 = Ok (run, g') ->
      NumPy.p run = (ps_lam ps * ps_T ps / inject_Z (ps_n ps))%Q /\
      (exists g1 : Rng,
          binomial (ps_n ps) (NumPy.p run) (ps_trials ps)
                   (mkRng (seeded (ps_seed ps)) 0)
          = Ok (NumPy.counts run, g1)) /\
      NumPy.mean_count run = NumPy.mean (map inject_Z (NumPy.counts run)) /\
      NumPy.var_count run = NumPy.var 0 (map inject_Z (NumPy.counts run)) /\
      NumPy.interarrival_stats (interarrivals (NumPy.event run))
      = (NumPy.mean_ia run, NumPy.var_ia run) /\
      summary_fields (NumPy.out run) (ps_T ps) (ps_lam ps) (ps_n ps)
                     (NumPy.p run) (ps_trials ps)
                     (NumPy.mean_count run) (NumPy.var_count run)
                     (len (times (NumPy.event run)))).
Proof.
  split; intros run g' E.
  - destruct (purepy_main_inv seeded ps g0 run g' E) as [Hn Htr].
    destruct (purepy_main_record seeded ps g0 Hn Htr)
      as [run0 [g0' [E0 H]]].
    rewrite E0 in E. injection E as <- _. exact H.
  - destruct (numpy_main_inv seeded binomial ps g0 run g' E)
      as [Hn [cs [g1 Hb]]].
    destruct (numpy_main_record seeded binomial ps g0 cs g1 Hn Hb)
      as [run0 [g0' [E0 [Hp [Hc [Hm [Hv [Hs Hf]]]]]]]].
    rewrite E0 in E. injection E as <- _.
    split; [exact Hp |].
    split; [exists g1; now rewrite Hp, Hc |].
    rewrite Hc.
    split; [exact Hm |]. split; [exact Hv |]. split; [exact Hs | exact Hf].
Qed.

Lemma C1_summary_record_witness :
  (exists (run : PurePy.Run) (g' : Rng),
      PurePy.main (fun _ => demo_draws) demo_parameters demo_rng
      = Ok (run, g') /\
      PurePy.p run = (3 * 1 / inject_Z 6)%Q /\
      PurePy.mean_of_counts (PurePy.counts run)
      = Ok (PurePy.mean_count run) /\
      PurePy.var_of_counts (PurePy.counts run) (PurePy.mean_count run)
      = Ok (PurePy.var_count run) /\
      PurePy.interarrival_stats (interarrivals (PurePy.event run))
      = Ok (PurePy.mean_ia run, PurePy.var_ia run) /\
      summary_fields (PurePy.out run) 1 3 6 (PurePy.p run) 3
                     (Finite (PurePy.mean_count run))
                     (Finite (PurePy.var_count run))
                     (len (times (PurePy.event run)))) /\
  (exists (run : NumPy.Run) (g' : Rng),
      NumPy.main (fun _ => demo_draws)
                 (fun n p trials => PurePy.simulate_counts trials n p)
                 demo_parameters demo_rng
      = Ok (run, g') /\
      NumPy.p run = (3 * 1 / inject_Z 6)%Q /\
      (exists g1 : Rng,
          PurePy.simulate_counts 3 6 (NumPy.p run) (mkRng demo_draws 0)
          = Ok (NumPy.counts run, g1)) /\
      NumPy.mean_count run = NumPy.mean (map inject_Z (NumPy.counts run)) /\
      NumPy.var_count run = NumPy.var 0 (map inject_Z (NumPy.counts run)) /\
      NumPy.interarrival_stats (interarrivals (NumPy.event run))
      = (NumPy.mean_ia run, NumPy.var_ia run) /\
      summary_fields (NumPy.out run) 1 3 6 (NumPy.p run) 3
                     (NumPy.mean_count run) (NumPy.var_count run)
                     (len (times (NumPy.event run)))).
Proof.
  pose proof (C1_summary_record
                (fun _ => demo_draws)
                (fun n p trials => PurePy.simulate_counts trials n p)
                demo_parameters demo_rng) as [HP HN].
  split.
  - eexists; eexists. split; [vm_compute; reflexivity |].
    eapply HP. vm_compute. reflexivity.
  - eexists; eexists. split; [vm_compute; reflexivity |].
    eapply HN. vm_compute. reflexivity.
Defined.

(** ** The configuration of the scripts *)

(** With T = 1.0, lambda = 3.5, n = 5000 and trials = 20000 the scalar script
    runs to the end for every seeded draw sequence, with p = 0.0007, and
    writes theor_mean = theor_var = 3.5; 1/lambda is 2/7, within 0.00005 of
    0.2857.  The empirical values depend on the draws the seed selects. *)
Lemma script_theoretical_values (seeded : Z -> nat -> Q) (g0 : Rng) :
  exists (run : PurePy.Run) (g' : Rng) (v : Q),
    PurePy.main seeded script_parameters g0 = Ok (run, g') /\
    (PurePy.p run == 7 # 10000)%Q /\
    lookup "theor_mean" (PurePy.out run) = Some (PyFloat (Finite v)) /\
    lookup "theor_var" (PurePy.out run) = Some (PyFloat (Finite v)) /\
    (v == 35 # 10)%Q /\
    ((2857 # 10000) - (5 # 100000) < 1 / ps_lam script_parameters)%Q /\
    (1 / ps_lam script_parameters < (2857 # 10000) + (5 # 100000))%Q.
Proof.
  destruct (purepy_main_record seeded script_parameters g0)
    as [run [g' [Hrun [Hp [_ [_ [_ Hf]]]]]]]; [discriminate | simpl; lia |].
  destruct Hf as [_ [_ [_ [_ [_ [_ [_ [_ [Hm [Hv _]]]]]]]]]].
  exists run, g', (ps_lam script_parameters * ps_T script_parameters)%Q.
  split; [exact Hrun |].
  split; [rewrite Hp; reflexivity |].
  split; [exact Hm |]. split; [exact Hv |].
  repeat split.
Qed.


(** * Further properties of the scripts *)

(** ** The count sampler *)

Lemma round_counts_nth (per_round : nat) (p : Q) (rounds : nat) :
  forall (g : Rng) (j : nat),
    (j < rounds)%nat ->
    nth_error (round_counts rounds per_round p g) j
    = Some (below p (round_draws g per_round j)).
Proof.
  induction rounds as [| rounds IH]; intros g j Hj; [lia |].
  destruct j as [| j]; cbn [round_counts nth_error].
  - unfold round_draws. cbn [Nat.mul]. now rewrite advance_0.
  - rewrite IH by lia. unfold round_draws.
    rewrite advance_advance. reflexivity.
Qed.

Lemma below_bounds (p : Q) (us : list Q) : 0 <= below p us <= len us.
Proof.
  unfold below, len. pose proof (filter_length_le (fun u => Qltb u p) us).
  lia.
Qed.

Lemma round_counts_bounds (per_round : nat) (p : Q) (rounds : nat) :
  forall g : Rng,
    Forall (fun c => 0 <= c <= Z.of_nat per_round)
           (round_counts rounds per_round p g).
Proof.
  induction rounds as [| rounds IH]; intros g; cbn [round_counts].
  - constructor.
  - constructor; [| apply IH].
    pose proof (below_bounds p (upcoming g per_round)) as H.
    unfold below, len in H. rewrite upcoming_length in H.
    unfold len. lia.
Qed.

(** X1. Whatever the draws and the threshold, the scalar count sampler
    returns without raising exactly max(trials, 0) counts, each between 0
    and max(n, 0), and it consumes max(trials, 0) * max(n, 0) draws. *)
Theorem X1_count_sample_shape (trials n : Z) (p : Q) (g : Rng) :
  exists (counts : list Z) (g' : Rng),
    PurePy.simulate_counts trials n p g = Ok (counts, g') /\
    len counts = Z.max trials 0 /\
    Forall (fun c => 0 <= c <= Z.max n 0) counts /\
    draws g' = draws g /\
    Z.of_nat (cursor g') = Z.of_nat (cursor g) + Z.max trials 0 * Z.max n 0.
Proof.
  eexists; eexists. split; [apply simulate_counts_run |].
  split; [unfold len; rewrite round_counts_length; lia |].
  split.
  - eapply Forall_impl; [| apply round_counts_bounds].
    cbv beta. intros c Hc. lia.
  - split; [reflexivity |]. cbn [advance cursor]. nia.
Qed.

(** X2. The counts follow the draw order: count j is the number of values
    below p among the n draws numbered j*n, ..., j*n + n - 1 after the
    generator's cursor, so the rounds read consecutive, disjoint blocks. *)
Theorem X2_count_blocks (trials n : Z) (p : Q) (g : Rng) (j : nat) :
  (j < Z.to_nat trials)%nat ->
  exists (counts : list Z) (g' : Rng),
    PurePy.simulate_counts trials n p g = Ok (counts, g') /\
    nth_error counts j = Some (below p (round_draws g (Z.to_nat n) j)) /\
    round_draws g (Z.to_nat n) j
    = map (fun i => draws g (cursor g + j * Z.to_nat n + i)%nat)
          (seq 0 (Z.to_nat n)).
Proof.
  intros Hj. eexists; eexists. split; [apply simulate_counts_run |].
  split; [now apply round_counts_nth |].
  reflexivity.
Qed.

Lemma X2_count_blocks_witness :
  exists (counts : list Z) (g' : Rng),
    PurePy.simulate_counts 3 6 (1 # 2) demo_rng = Ok (counts, g') /\
    nth_error counts 1 = Some (below (1 # 2) (round_draws demo_rng (Z.to_nat 6) 1)) /\
    round_draws demo_rng (Z.to_nat 6) 1
    = map (fun i => draws demo_rng (cursor demo_rng + 1 * Z.to_nat 6 + i)%nat)
          (seq 0 (Z.to_nat 6)).
Proof.
  apply (X2_count_blocks 3 6 (1 # 2) demo_rng 1). simpl; lia.
Defined.

(** ** The hit indices and the draws behind them *)

Lemma nonzero_from_In (b : list bool) :
  forall (a i : Z),
    In i (NumPy.nonzero_from a b) <->
    exists k : nat, nth_error b k = Some true /\ i = a + Z.of_nat k.
Proof.
  induction b as [| x b IH]; intros a i.
  - cbn. split; [contradiction |]. intros [k [H _]]. destruct k; discriminate.
  - assert (Hrest : In i (NumPy.nonzero_from (a + 1) b) <->
                    exists k : nat,
                      nth_error b k = Some true /\ i = a + Z.of_nat (S k)).
    { rewrite IH. split; intros [k [H ->]]; exists k; split; auto; lia. }
    destruct x; cbn [NumPy.nonzero_from In]; rewrite ?Hrest; split.
    + intros [<- | [k [H ->]]].
      * exists 0%nat. split; [reflexivity | simpl; lia].
      * exists (S k). now split.
    + intros [[| k] [H ->]].
      * left. simpl. lia.
      * right. exists k. now split.
    + intros [k [H ->]]. exists (S k). now split.
    + intros [[| k] [H ->]]; [discriminate H |]. exists k. now split.
Qed.

Lemma less_upcoming_nth (g : Rng) (m : nat) (p : Q) (k : nat) :
  nth_error (NumPy.less (upcoming g m) p) k = Some true <->
  (k < m)%nat /\ (draws g (cursor g + k) < p)%Q.
Proof.
  unfold NumPy.less, upcoming. rewrite !nth_error_map, nth_error_seq.
  destruct (Nat.ltb k m) eqn:E.
  - apply Nat.ltb_lt in E. cbn [option_map Nat.add]. rewrite <- Qltb_lt.
    split.
    + intros [= H]. now split.
    + intros [_ H]. now rewrite H.
  - apply Nat.ltb_ge in E. cbn [option_map]. split; [discriminate | lia].
Qed.

Lemma hits_In (n : Z) (p : Q) (g : Rng) (i : Z) :
  In i (hits n p g) <->
  0 <= i < n /\ (draws g (cursor g + Z.to_nat i) < p)%Q.
Proof.
  unfold hits, NumPy.nonzero. rewrite nonzero_from_In. split.
  - intros [k [H ->]]. apply less_upcoming_nth in H. destruct H as [Hk Hd].
    rewrite Z.add_0_l, Nat2Z.id. split; [lia | exact Hd].
  - intros [Hi Hd]. exists (Z.to_nat i). split; [| lia].
    apply less_upcoming_nth. split; [lia | exact Hd].
Qed.

Lemma built_indices (n : Z) (p T : Q) (g : Rng) :
  indices (built n p T g) = hits n p g.
Proof. unfold built. now destruct (truthy (hits n p g)). Qed.

Lemma built_lengths (n : Z) (p T : Q) (g : Rng) :
  length (times (built n p T g)) = length (hits n p g) /\
  length (interarrivals (built n p T g)) = length (hits n p g).
Proof.
  unfold built. destruct (truthy (hits n p g)) eqn:E;
    cbn [times interarrivals].
  - cbn [app]. rewrite diff_length, sort_length, raw_times_length. now split.
  - destruct (hits n p g); [now split | discriminate E].
Qed.

Lemma consumed_cursor (n : Z) (p : Q) (g : Rng) :
  draws (consumed n p g) = draws g /\
  cursor (consumed n p g)
  = (cursor g + Z.to_nat n + length (hits n p g))%nat.
Proof.
  unfold consumed. destruct (truthy (hits n p g)) eqn:E;
    cbn [advance draws cursor].
  - split; [reflexivity | lia].
  - destruct (hits n p g); [| discriminate E]. cbn [length].
    split; [reflexivity | lia].
Qed.

(** X3. Subinterval i is a hit exactly when draw number i of the n
    Bernoulli draws is below p: the hit indices of either script are the
    indices 0 <= i < n whose draw is below p, in increasing order, and
    there is one timestamp and one gap per hit index. *)
Theorem X3_hit_indices (n : Z) (p T : Q) (g : Rng) :
  0 <= n ->
  exists r : Realization,
    both_return n p T g r /\
    (forall i : Z,
        In i (indices r) <->
        0 <= i < n /\ (draws g (cursor g + Z.to_nat i) < p)%Q) /\
    increasing_Z (indices r) /\
    length (times r) = length (indices r) /\
    length (interarrivals r) = length (indices r).
Proof.
  intros Hn. exists (built n p T g).
  split; [now apply both_return_built |].
  rewrite built_indices.
  split; [intros i; apply hits_In |].
  split; [apply nonzero_from_increasing |].
  apply built_lengths.
Qed.

Lemma X3_hit_indices_witness :
  exists r : Realization,
    both_return 6 (1 # 2) 1 demo_rng r /\
    (forall i : Z,
        In i (indices r) <->
        0 <= i < 6 /\
        (draws demo_rng (cursor demo_rng + Z.to_nat i) < 1 # 2)%Q) /\
    increasing_Z (indices r) /\
    length (times r) = length (indices r) /\
    length (interarrivals r) = length (indices r).
Proof. apply (X3_hit_indices 6 (1 # 2) 1 demo_rng). lia. Defined.

(** X4. A realization builder reads n draws for the Bernoulli step and then
    one draw per hit, and nothing else: both scripts leave the generator
    with the same sequence and the cursor moved by n plus the number of
    hits. *)
Theorem X4_builder_consumption (n : Z) (p T : Q) (g : Rng) :
  0 <= n ->
  exists (r : Realization) (g' : Rng),
    PurePy.realization n p T g = Ok (r, g') /\
    NumPy.realization n p T g = Ok (r, g') /\
    draws g' = draws g /\
    cursor g' = (cursor g + Z.to_nat n + length (indices r))%nat /\
    (length (indices r) <= Z.to_nat n)%nat.
Proof.
  intros Hn. exists (built n p T g), (consumed n p g).
  split; [apply purepy_realization_run |].
  split; [now apply numpy_realization_run |].
  rewrite built_indices.
  pose proof (consumed_cursor n p g) as [Hd Hc].
  split; [exact Hd |]. split; [exact Hc | apply hits_length].
Qed.

Lemma X4_builder_consumption_witness :
  exists (r : Realization) (g' : Rng),
    PurePy.realization 6 (1 # 2) 1 demo_rng = Ok (r, g') /\
    NumPy.realization 6 (1 # 2) 1 demo_rng = Ok (r, g') /\
    draws g' = draws demo_rng /\
    cursor g' = (cursor demo_rng + Z.to_nat 6 + length (indices r))%nat /\
    (length (indices r) <= Z.to_nat 6)%nat.
Proof. apply (X4_builder_consumption 6 (1 # 2) 1 demo_rng). lia. Defined.

(** X5. With a negative n the two builders part ways: the scalar script
    loops over an empty range and returns the empty realization without
    reading a draw, while np.random.rand refuses the negative size with a
    ValueError. *)
Theorem X5_negative_size (n : Z) (p T : Q) (g : Rng) :
  n < 0 ->
  PurePy.realization n p T g = Ok (mkRealization [] [] [], g) /\
  NumPy.realization n p T g = Raise ValueError.
Proof.
  intros Hn. split; [| now apply numpy_realization_negative].
  rewrite purepy_realization_run. unfold built, consumed, hits.
  replace (Z.to_nat n) with 0%nat by lia. cbn. now rewrite advance_0.
Qed.

Lemma X5_negative_size_witness :
  PurePy.realization (-3) (1 # 2) 1 demo_rng
  = Ok (mkRealization [] [] [], demo_rng) /\
  NumPy.realization (-3) (1 # 2) 1 demo_rng = Raise ValueError.
Proof. apply (X5_negative_size (-3) (1 # 2) 1 demo_rng). lia. Defined.

(** ** The window of draws a builder depends on *)

Lemma upcoming_app (a b : nat) :
  forall g : Rng,
    upcoming g (a + b) = upcoming g a ++ upcoming (advance g a) b.
Proof.
  induction a as [| a IH]; intros g.
  - now rewrite advance_0.
  - cbn [Nat.add]. rewrite !upcoming_S, IH, advance_advance. reflexivity.
Qed.

Lemma app_inv_length {A : Type} (l1 l1' l2 l2' : list A) :
  length l1 = length l1' -> l1 ++ l2 = l1' ++ l2' -> l1 = l1' /\ l2 = l2'.
Proof.
  revert l1'. induction l1 as [| x l1 IH]; intros [| x' l1'] HL H;
    try discriminate HL.
  - now split.
  - cbn [app] in H. injection H as -> H. injection HL as HL.
    destruct (IH l1' HL H) as [-> ->]. now split.
Qed.

Lemma upcoming_prefix (g g' : Rng) (k m : nat) :
  (k <= m)%nat -> upcoming g m = upcoming g' m ->
  upcoming g k = upcoming g' k.
Proof.
  intros Hk H. replace m with (k + (m - k))%nat in H by lia.
  rewrite !upcoming_app in H.
  apply app_inv_length in H; [tauto |].
  now rewrite !upcoming_length.
Qed.

Lemma built_window (n : Z) (p T : Q) (g g' : Rng) :
  upcoming g (2 * Z.to_nat n) = upcoming g' (2 * Z.to_nat n) ->
  built n p T g = built n p T g'.
Proof.
  intros H. replace (2 * Z.to_nat n)%nat with (Z.to_nat n + Z.to_nat n)%nat
    in H by lia.
  rewrite !upcoming_app in H.
  apply app_inv_length in H; [| now rewrite !upcoming_length].
  destruct H as [H1 H2].
  assert (Hh : hits n p g = hits n p g') by (unfold hits; now rewrite H1).
  assert (Hr : raw_times n p T g = raw_times n p T g').
  { unfold raw_times. rewrite <- Hh. do 2 f_equal.
    eapply upcoming_prefix; [apply hits_length | exact H2]. }
  unfold built. now rewrite <- Hh, <- Hr.
Qed.

(** X7. A realization depends on the next 2n draws only: two generator
    states that deliver the same 2n values next make both scripts return
    the same hit indices, Realization and InterarrivalSequence. *)
Theorem X7_builder_window (n : Z) (p T : Q) (g g' : Rng) :
  0 <= n ->
  upcoming g (2 * Z.to_nat n) = upcoming g' (2 * Z.to_nat n) ->
  exists r : Realization, both_return n p T g r /\ both_return n p T g' r.
Proof.
  intros Hn H. exists (built n p T g). split.
  - now apply both_return_built.
  - rewrite (built_window n p T g g' H). now apply both_return_built.
Qed.

Lemma X7_builder_window_witness :
  exists r : Realization,
    both_return 5 (1 # 2) 1 demo_rng r /\
    both_return 5 (1 # 2) 1 (mkRng demo_draws 10) r.
Proof.
  apply (X7_builder_window 5 (1 # 2) 1 demo_rng (mkRng demo_draws 10)).
  - lia.
  - vm_compute. reflexivity.
Defined.

(** ** Raising the threshold *)

Lemma below_monotone (p p' : Q) (us : list Q) :
  (p <= p')%Q -> below p us <= below p' us.
Proof.
  intros Hp. unfold below, len.
  induction us as [| u us IH]; [cbn; lia |].
  cbn [filter]. destruct (Qltb u p) eqn:E.
  - apply Qltb_lt in E.
    assert (E' : Qltb u p' = true) by (apply Qltb_lt; lra).
    rewrite E'. cbn [length]. lia.
  - destruct (Qltb u p'); cbn [length]; lia.
Qed.

Lemma round_counts_monotone (p p' : Q) (per_round rounds : nat) :
  (p <= p')%Q ->
  forall g : Rng,
    Forall2 Z.le (round_counts rounds per_round p g)
                 (round_counts rounds per_round p' g).
Proof.
  intros Hp. induction rounds as [| rounds IH]; intros g; cbn [round_counts].
  - constructor.
  - constructor; [| apply IH].
    now apply (below_monotone p p' (upcoming g per_round)).
Qed.

(** X8. Raising the threshold never loses an event: on the same draws and
    with p <= p', every count of the scalar sampler under p is at most the
    count of the same round under p', and every hit index of either builder
    under p is a hit index under p'. *)
Theorem X8_threshold_monotone
    (trials n : Z) (p p' T : Q) (g : Rng) :
  (p <= p')%Q -> 0 <= n ->
  (exists (counts counts' : list Z) (g1 : Rng),
      PurePy.simulate_counts trials n p g = Ok (counts, g1) /\
      PurePy.simulate_counts trials n p' g = Ok (counts', g1) /\
      Forall2 Z.le counts counts') /\
  (exists r r' : Realization,
      both_return n p T g r /\ both_return n p' T g r' /\
      incl (indices r) (indices r')).
Proof.
  intros Hp Hn. split.
  - eexists; eexists; eexists.
    split; [apply simulate_counts_run |].
    split; [apply simulate_counts_run |].
    now apply round_counts_monotone.
  - exists (built n p T g), (built n p' T g).
    split; [now apply both_return_built |].
    split; [now apply both_return_built |].
    rewrite !built_indices. intros i Hi.
    apply hits_In in Hi. apply hits_In. split; [tauto |].
    destruct Hi as [_ Hi]. lra.
Qed.

Lemma X8_threshold_monotone_witness :
  (exists (counts counts' : list Z) (g1 : Rng),
      PurePy.simulate_counts 3 6 (1 # 4) demo_rng = Ok (counts, g1) /\
      PurePy.simulate_counts 3 6 (1 # 2) demo_rng = Ok (counts', g1) /\
      Forall2 Z.le counts counts') /\
  (exists r r' : Realization,
      both_return 6 (1 # 4) 1 demo_rng r /\
      both_return 6 (1 # 2) 1 demo_rng r' /\
      incl (indices r) (indices r')).
Proof.
  apply (X8_threshold_monotone 3 6 (1 # 4) (1 # 2) 1 demo_rng).
  - unfold Qle; simpl; lia.
  - lia.
Defined.

(** ** The statistics *)

Lemma fold_right_Qplus_bounds (lo hi : Q) (xs : list Q) :
  Forall (fun x => lo <= x /\ x <= hi)%Q xs ->
  (inject_Z (len xs) * lo <= fold_right Qplus 0 xs)%Q /\
  (fold_right Qplus 0 xs <= inject_Z (len xs) * hi)%Q.
Proof.
  induction 1 as [| x xs [Hlo Hhi] _ [IHlo IHhi]].
  - unfold len. cbn [length Z.of_nat fold_right].
    change (inject_Z 0) with 0%Q. lra.
  - unfold len in *. cbn [length fold_right].
    rewrite Nat2Z.inj_succ, <- Z.add_1_r, inject_Z_plus.
    change (inject_Z 1) with 1%Q. lra.
Qed.

Lemma len_positive {A : Type} (l : list A) :
  l <> [] -> (0 < inject_Z (len l))%Q.
Proof.
  intros H. unfold len, Qlt; simpl.
  destruct l; [contradiction | simpl; lia].
Qed.

Lemma population_mean_bounds (lo hi : Q) (xs : list Q) :
  xs <> [] -> Forall (fun x => lo <= x /\ x <= hi)%Q xs ->
  (lo <= population_mean xs /\ population_mean xs <= hi)%Q.
Proof.
  intros Hne Hb. pose proof (len_positive xs Hne) as HN.
  destruct (fold_right_Qplus_bounds lo hi xs Hb) as [Hlo Hhi].
  unfold population_mean. fold (len xs). split.
  - apply Qle_shift_div_l; [exact HN | lra].
  - apply Qle_shift_div_r; [exact HN | lra].
Qed.

Lemma Qsquare_nonneg (a : Q) : (0 <= a * a)%Q.
Proof.
  destruct a as [x d]. unfold Qle, Qmult; cbn [Qnum Qden].
  rewrite Z.mul_1_r. cbn [Z.mul]. apply Z.square_nonneg.
Qed.

Lemma fold_right_squares_nonneg (m : Q) (xs : list Q) :
  (0 <= fold_right Qplus 0 (map (fun x => (x - m) * (x - m)) xs))%Q.
Proof.
  induction xs as [| x xs IH]; cbn [map fold_right]; [lra |].
  pose proof (Qsquare_nonneg (x - m)) as H.
  lra.
Qed.

Lemma population_variance_nonneg (xs : list Q) :
  xs <> [] -> (0 <= population_variance xs)%Q.
Proof.
  intros Hne. pose proof (len_positive xs Hne) as HN.
  unfold population_variance. fold (len xs).
  apply Qle_shift_div_l; [exact HN |].
  pose proof (fold_right_squares_nonneg (population_mean xs) xs). lra.
Qed.

(** ** A whole run of the scalar script *)

(** The run in closed form, in exact arithmetic: the counts are read first,
    the realization is built from the generator state they leave. *)
Lemma purepy_main_run (seeded : Z -> nat -> Q) (ps : ParameterSet)
    (g0 : Rng) :
  ps_n ps <> 0 -> 1 <= ps_trials ps ->
  let p := (ps_lam ps * ps_T ps / inject_Z (ps_n ps))%Q in
  let g1 := mkRng (seeded (ps_seed ps)) 0 in
  let cs := round_counts (Z.to_nat (ps_trials ps)) (Z.to_nat (ps_n ps)) p g1 in
  let g2 := advance g1 (Z.to_nat (ps_trials ps) * Z.to_nat (ps_n ps)) in
  let ev := built (ps_n ps) p (ps_T ps) g2 in
  exists (m v : Q) (s : option Q * option Q),
    PurePy.mean_of_counts cs = Ok m /\
    PurePy.var_of_counts cs m = Ok v /\
    (m == population_mean (map inject_Z cs))%Q /\
    (v == population_variance (map inject_Z cs))%Q /\
    PurePy.interarrival_stats (interarrivals ev) = Ok s /\
    PurePy.main seeded ps g0
    = Ok (PurePy.mkRun p cs ev m v (fst s) (snd s)
            (PurePy.summary (ps_T ps) (ps_lam ps) (ps_n ps) p (ps_trials ps)
                            m v (times ev)),
          consumed (ps_n ps) p g2).
Proof.
  intros Hn Htr p g1 cs g2 ev.
  assert (Hcs : cs <> []).
  { intros E. pose proof (round_counts_length (Z.to_nat (ps_trials ps))
                            (Z.to_nat (ps_n ps)) p g1) as HL.
    fold cs in HL. rewrite E in HL. simpl in HL. lia. }
  destruct (purepy_count_stats cs Hcs) as [m [v [Hm [Hv [Em Ev]]]]].
  destruct (purepy_interarrival_stats_total (interarrivals ev)) as [s Hs].
  exists m, v, s. do 5 (split; [assumption |]).
  unfold PurePy.main. cbv zeta.
  erewrite bind_run
    by (apply lift_run, truediv_ok, inject_Z_nonzero, Hn).
  erewrite bind_run by reflexivity.
  erewrite bind_run by apply simulate_counts_run.
  erewrite bind_run by apply purepy_realization_run.
  erewrite bind_run by (apply lift_run, Hm).
  erewrite bind_run by (apply lift_run, Hv).
  erewrite bind_run by (apply lift_run, Hs).
  reflexivity.
Qed.

Lemma counts_as_floats (n : Z) (cs : list Z) :
  Forall (fun c => 0 <= c <= n) cs ->
  Forall (fun x => 0 <= x /\ x <= inject_Z n)%Q (map inject_Z cs).
Proof.
  intros H. apply Forall_map. eapply Forall_impl; [| exact H].
  cbv beta. intros c [H0 H1]. split.
  - change 0%Q with (inject_Z 0). now rewrite <- Zle_Qle.
  - now rewrite <- Zle_Qle.
Qed.

(** X12. A run of the scalar script that reaches the end, with n between 1
    and 2^53, had at least one trial; it leaves trials counts, each between
    0 and n, a counts mean between 0 and n and a counts variance that is
    not negative, and it has read exactly trials*n + n + (number of events)
    draws of the seeded sequence. *)
Theorem X12_scalar_run (seeded : Z -> nat -> Q) (ps : ParameterSet)
    (g0 : Rng) (run : PurePy.Run) (g' : Rng) :
  1 <= ps_n ps <= 2 ^ 53 ->
  PurePy.main seeded ps g0 = Ok (run, g') ->
  1 <= ps_trials ps /\
  len (PurePy.counts run) = ps_trials ps /\
  Forall (fun c => 0 <= c <= ps_n ps) (PurePy.counts run) /\
  (0 <= PurePy.mean_count run /\
   PurePy.mean_count run <= inject_Z (ps_n ps))%Q /\
  (0 <= PurePy.var_count run)%Q /\
  draws g' = seeded (ps_seed ps) /\
  Z.of_nat (cursor g')
  = ps_trials ps * ps_n ps + ps_n ps + len (times (PurePy.event run)).
Proof.
  intros [Hn _] E.
  destruct (purepy_main_inv seeded ps g0 run g' E) as [_ Htr].
  destruct (purepy_main_run seeded ps g0 ltac:(lia) Htr)
    as [m [v [s [_ [_ [Em [Ev [_ Hrun]]]]]]]].
  rewrite Hrun in E. injection E as <- <-.
  split; [exact Htr |].
  cbn [PurePy.counts PurePy.mean_count PurePy.var_count PurePy.event].
  set (p := (ps_lam ps * ps_T ps / inject_Z (ps_n ps))%Q) in *.
  set (g1 := mkRng (seeded (ps_seed ps)) 0) in *.
  set (cs := round_counts _ _ p g1) in *.
  assert (HL : length cs = Z.to_nat (ps_trials ps))
    by apply round_counts_length.
  assert (Hb : Forall (fun c => 0 <= c <= ps_n ps) cs).
  { eapply Forall_impl; [| apply round_counts_bounds]. cbv beta. lia. }
  assert (Hne : map inject_Z cs <> []).
  { destruct cs; [simpl in HL; lia | discriminate]. }
  split; [unfold len; lia |]. split; [exact Hb |].
  split.
  { rewrite Em. apply population_mean_bounds; [exact Hne |].
    now apply counts_as_floats. }
  split; [rewrite Ev; now apply population_variance_nonneg |].
  destruct (consumed_cursor (ps_n ps) p
              (advance g1 (Z.to_nat (ps_trials ps) * Z.to_nat (ps_n ps))))
    as [Hd Hc].
  split; [exact Hd |].
  rewrite Hc. cbn [advance cursor g1].
  destruct (built_lengths (ps_n ps) p (ps_T ps)
              (advance g1 (Z.to_nat (ps_trials ps) * Z.to_nat (ps_n ps))))
    as [Ht _].
  unfold len. rewrite Ht. nia.
Qed.

Lemma X12_scalar_run_witness :
  exists (run : PurePy.Run) (g' : Rng),
    PurePy.main (fun _ => demo_draws) demo_parameters demo_rng
    = Ok (run, g') /\
    1 <= 3 /\
    len (PurePy.counts run) = 3 /\
    Forall (fun c => 0 <= c <= 6) (PurePy.counts run) /\
    (0 <= PurePy.mean_count run /\
     PurePy.mean_count run <= inject_Z 6)%Q /\
    (0 <= PurePy.var_count run)%Q /\
    draws g' = demo_draws /\
    Z.of_nat (cursor g') = 3 * 6 + 6 + len (times (PurePy.event run)).
Proof.
  eexists; eexists. split; [vm_compute; reflexivity |].
  apply (X12_scalar_run (fun _ => demo_draws) demo_parameters demo_rng).
  - split; apply Z.leb_le; reflexivity.
  - vm_compute. reflexivity.
Defined.

(** X13. Two ways for the scalar script to stop with a ZeroDivisionError:
    n = 0, at p = lam * T / n, where the vectorised script stops as well;
    and, for a non-zero n of at most 2^53 in size, trials <= 0, at the mean
    of an empty count list. *)
Theorem X13_scalar_failures (seeded : Z -> nat -> Q)
    (binomial : Z -> Q -> Z -> M (list Z)) (ps : ParameterSet) (g : Rng) :
  ps_n ps = 0 \/ (Z.abs (ps_n ps) <= 2 ^ 53 /\ ps_trials ps <= 0) ->
  PurePy.main seeded ps g = Raise ZeroDivisionError /\
  (ps_n ps = 0 ->
   NumPy.main seeded binomial ps g = Raise ZeroDivisionError).
Proof.
  intros H. split.
  - destruct (Z.eq_dec (ps_n ps) 0) as [Hn | Hn].
    + now destruct (main_zero_subintervals seeded binomial ps g Hn).
    + destruct H as [H | [_ Htr]]; [contradiction |].
      now apply purepy_main_no_trials.
  - intros Hn. now destruct (main_zero_subintervals seeded binomial ps g Hn).
Qed.

Lemma X13_scalar_failures_witness :
  PurePy.main (fun _ => demo_draws) (mkParameterSet 1 3 6 0 42) demo_rng
  = Raise ZeroDivisionError /\
  (6 = 0 ->
   NumPy.main (fun _ => demo_draws)
              (fun n p trials => PurePy.simulate_counts trials n p)
              (mkParameterSet 1 3 6 0 42) demo_rng
   = Raise ZeroDivisionError).
Proof.
  apply (X13_scalar_failures
           (fun _ => demo_draws)
           (fun n p trials => PurePy.simulate_counts trials n p)
           (mkParameterSet 1 3 6 0 42) demo_rng).
  right. split; [apply Z.leb_le; reflexivity | simpl; lia].
Defined.

(** ** A whole run of the vectorised script *)

Lemma numpy_main_run (seeded : Z -> nat -> Q)
    (binomial : Z -> Q -> Z -> M (list Z)) (ps : ParameterSet) (g0 : Rng)
    (cs : list Z) (g1 : Rng) :
  1 <= ps_n ps ->
  let p := (ps_lam ps * ps_T ps / inject_Z (ps_n ps))%Q in
  binomial (ps_n ps) p (ps_trials ps) (mkRng (seeded (ps_seed ps)) 0)
  = Ok (cs, g1) ->
  let ev := built (ps_n ps) p (ps_T ps) g1 in
  let m := NumPy.mean (map inject_Z cs) in
  let v := NumPy.var 0 (map inject_Z cs) in
  let s := NumPy.interarrival_stats (interarrivals ev) in
  NumPy.main seeded binomial ps g0
  = Ok (NumPy.mkRun p cs ev m v (fst s) (snd s)
          (NumPy.summary (ps_T ps) (ps_lam ps) (ps_n ps) p (ps_trials ps)
                         m v (times ev)),
        consumed (ps_n ps) p g1).
Proof.
  intros Hn p Hb ev m v s. unfold NumPy.main. cbv zeta.
  erewrite bind_run
    by (apply lift_run, truediv_ok, inject_Z_nonzero; lia).
  erewrite bind_run by reflexivity.
  erewrite bind_run by exact Hb.
  erewrite bind_run by (apply numpy_realization_run; lia).
  reflexivity.
Qed.

(** X14. Where the scalar script fails on an empty count sample, the
    vectorised one does not: when NumPy's sampler returns no count (and
    n >= 1) the run completes and the record holds NaN as counts mean and
    as counts variance. *)
Theorem X14_empty_count_sample (seeded : Z -> nat -> Q)
    (binomial : Z -> Q -> Z -> M (list Z)) (ps : ParameterSet)
    (g0 g1 : Rng) :
  1 <= ps_n ps ->
  binomial (ps_n ps) (ps_lam ps * ps_T ps / inject_Z (ps_n ps))%Q
           (ps_trials ps) (mkRng (seeded (ps_seed ps)) 0) = Ok ([], g1) ->
  exists (run : NumPy.Run) (g' : Rng),
    NumPy.main seeded binomial ps g0 = Ok (run, g') /\
    NumPy.counts run = [] /\
    lookup "counts_mean" (NumPy.out run) = Some (PyFloat NaN) /\
    lookup "counts_var" (NumPy.out run) = Some (PyFloat NaN).
Proof.
  intros Hn Hb. eexists; eexists.
  split; [apply (numpy_main_run seeded binomial ps g0 [] g1 Hn Hb) |].
  repeat split.
Qed.

Lemma X14_empty_count_sample_witness :
  exists (run : NumPy.Run) (g' : Rng),
    NumPy.main (fun _ => demo_draws) (fun _ _ _ => ret [])
               (mkParameterSet 1 3 6 0 42) demo_rng = Ok (run, g') /\
    NumPy.counts run = [] /\
    lookup "counts_mean" (NumPy.out run) = Some (PyFloat NaN) /\
    lookup "counts_var" (NumPy.out run) = Some (PyFloat NaN).
Proof.
  apply (X14_empty_count_sample (fun _ => demo_draws) (fun _ _ _ => ret [])
           (mkParameterSet 1 3 6 0 42) demo_rng (mkRng demo_draws 0)).
  - simpl; lia.
  - reflexivity.
Defined.

(** ** The printed report *)

Lemma hits_positive_threshold (n : Z) (p : Q) (g : Rng) :
  unit_draws g -> hits n p g <> [] -> (0 < p)%Q.
Proof.
  intros Hg Hne. destruct (hits n p g) as [| i l] eqn:E; [contradiction |].
  assert (Hi : In i (hits n p g)) by (rewrite E; now left).
  apply hits_In in Hi. destruct Hi as [_ Hi].
  destruct (Hg (cursor g + Z.to_nat i)%nat) as [H0 _]. lra.
Qed.

(** A positive p = lam * T / n needs a rate different from zero. *)
Lemma rate_nonzero (lam T : Q) (n : Z) :
  (0 < lam * T / inject_Z n)%Q -> ~ (lam == 0)%Q.
Proof.
  intros Hp E. rewrite E in Hp. unfold Qdiv in Hp.
  rewrite !Qmult_0_l in Hp. exact (Qlt_irrefl 0 Hp).
Qed.

Lemma built_truthy (n : Z) (p T : Q) (g : Rng) :
  truthy (interarrivals (built n p T g)) = truthy (hits n p g) /\
  truthy (times (built n p T g)) = truthy (hits n p g).
Proof.
  destruct (built_lengths n p T g) as [Ht Hi].
  destruct (hits n p g); destruct (times (built n p T g));
    destruct (interarrivals (built n p T g)); try discriminate; now split.
Qed.

Lemma purepy_report_run (T lam : Q) (n : Z) (p : Q) (trials : Z)
    (mean_count var_count : Q) (ts ia : list Q) (s : option Q * option Q) :
  PurePy.interarrival_stats ia = Ok s ->
  (truthy ia = true -> ~ (lam == 0)%Q) ->
  exists lines : list line,
    purepy_report T lam n p trials mean_count var_count ts ia (fst s) (snd s)
    = (lines, None) /\
    if truthy ia
    then length lines = 13%nat /\
         last lines []
         = [Text " theoretical Exponential mean = 1/lambda = ";
            Formatted ".6f" (Finite (1 / lam))]
    else length lines = 9%nat /\
         last lines []
         = [Text "No events in the single realization used for interarrival inspection."].
Proof.
  intros Hs Hlam. unfold purepy_report.
  destruct (truthy ia) eqn:E.
  - destruct (purepy_interarrival_stats ia) as [m [v [H _]]];
      [destruct ia; [discriminate E | discriminate] |].
    rewrite H in Hs. injection Hs as <-. cbn [fst snd].
    rewrite (truediv_ok 1 lam (Hlam eq_refl)).
    eexists. split; [reflexivity |]. split; reflexivity.
  - eexists. split; [reflexivity |]. split; reflexivity.
Qed.

Lemma numpy_report_run (T lam : Q) (n : Z) (p : Q) (trials : Z)
    (mean_count var_count : pyfloat) (ts ia : list Q) :
  (truthy ia = true -> ~ (lam == 0)%Q) ->
  exists lines : list line,
    numpy_report T lam n p trials mean_count var_count ts ia
                 (fst (NumPy.interarrival_stats ia))
                 (snd (NumPy.interarrival_stats ia))
    = (lines, None) /\
    if truthy ia
    then length lines = 17%nat /\
         In [Text " theoretical Exponential mean = 1/lambda = ";
             Formatted ".6f" (Finite (1 / lam))] lines
    else length lines = 11%nat /\
         last lines []
         = [Text "No events in the single realization used for interarrival inspection."].
Proof.
  intros Hlam. unfold numpy_report, NumPy.interarrival_stats.
  rewrite <- truthy_length.
  destruct (truthy ia) eqn:E.
  - cbn [fst snd]. rewrite (truediv_ok 1 lam (Hlam eq_refl)).
    eexists. split; [reflexivity |]. split; [reflexivity |].
    cbn. tauto.
  - eexists. split; [reflexivity |]. split; reflexivity.
Qed.

(** X15. For seeded draws in [0, 1): once a run of either script has
    reached its first print, the report prints to its last line without an
    exception: the interarrival statistics are formatted only when they are
    numbers, and 1.0/lam is evaluated only when there is an event, which
    needs p > 0 and so a rate different from zero.  With events the scalar
    script prints 13 lines (the vectorised one 17) and shows 1/lambda;
    without, 9 (11), the last one saying that there are no events. *)
Theorem X15_report_completes (seeded : Z -> nat -> Q)
    (binomial : Z -> Q -> Z -> M (list Z)) (ps : ParameterSet) (g0 : Rng) :
  unit_draws (mkRng (seeded (ps_seed ps)) 0) ->
  (forall (cs : list Z) (g1 : Rng),
      binomial (ps_n ps) (ps_lam ps * ps_T ps / inject_Z (ps_n ps))%Q
               (ps_trials ps) (mkRng (seeded (ps_seed ps)) 0) = Ok (cs, g1) ->
      unit_draws g1) ->
  (forall (run : PurePy.Run) (g' : Rng),
      PurePy.main seeded ps g0 = Ok (run, g') ->
      exists lines : list line,
        purepy_report_of ps run = (lines, None) /\
        if truthy (times (PurePy.event run))
        then length lines = 13%nat /\
             last lines []
             = [Text " theoretical Exponential mean = 1/lambda = ";
                Formatted ".6f" (Finite (1 / ps_lam ps))]
        else length lines = 9%nat /\
             last lines []
             = [Text "No events in the single realization used for interarrival inspection."]) /\
  (forall (run : NumPy.Run) (g' : Rng),
      NumPy.main seeded binomial ps g0 = Ok (run, g') ->
      exists lines : list line,
        numpy_report_of ps run = (lines, None) /\
        if truthy (times (NumPy.event run))
        then length lines = 17%nat /\
             In [Text " theoretical Exponential mean = 1/lambda = ";
                 Formatted ".6f" (Finite (1 / ps_lam ps))] lines
        else length lines = 11%nat /\
             last lines []
             = [Text "No events in the single realization used for interarrival inspection."]).
Proof.
  intros Hg Hg1.
  set (p := (ps_lam ps * ps_T ps / inject_Z (ps_n ps))%Q) in *.
  assert (Hrate : forall g : Rng,
             unit_draws g ->
             truthy (interarrivals (built (ps_n ps) p (ps_T ps) g)) = true ->
             ~ (ps_lam ps == 0)%Q).
  { intros g Hu Ht. destruct (built_truthy (ps_n ps) p (ps_T ps) g) as [E _].
    rewrite E in Ht. apply (rate_nonzero _ (ps_T ps) (ps_n ps)).
    apply (hits_positive_threshold (ps_n ps) p g Hu).
    intros E'. rewrite E' in Ht. discriminate Ht. }
  assert (Hsame : forall g : Rng,
             truthy (times (built (ps_n ps) p (ps_T ps) g))
             = truthy (interarrivals (built (ps_n ps) p (ps_T ps) g))).
  { intros g. destruct (built_truthy (ps_n ps) p (ps_T ps) g) as [E1 E2].
    now rewrite E1, E2. }
  split; intros run g' E.
  - destruct (purepy_main_inv seeded ps g0 run g' E) as [Hn Htr].
    destruct (purepy_main_run seeded ps g0 Hn Htr)
      as [m [v [s [_ [_ [_ [_ [Hs Hrun]]]]]]]].
    fold p in Hs, Hrun.
    set (g2 := advance (mkRng (seeded (ps_seed ps)) 0)
                       (Z.to_nat (ps_trials ps) * Z.to_nat (ps_n ps))) in *.
    destruct (purepy_report_run (ps_T ps) (ps_lam ps) (ps_n ps) p
                (ps_trials ps) m v
                (times (built (ps_n ps) p (ps_T ps) g2))
                (interarrivals (built (ps_n ps) p (ps_T ps) g2)) s Hs
                (Hrate g2 (unit_draws_advance _ _ Hg)))
      as [lines [Hl Hshape]].
    rewrite Hrun in E. injection E as <- _.
    exists lines.
    unfold purepy_report_of.
    cbn [PurePy.p PurePy.mean_count PurePy.var_count PurePy.event
         PurePy.mean_ia PurePy.var_ia].
    split; [exact Hl |]. now rewrite Hsame.
  - destruct (numpy_main_inv seeded binomial ps g0 run g' E)
      as [Hn [cs [g1 Hb]]].
    pose proof (numpy_main_run seeded binomial ps g0 cs g1 Hn Hb) as Hrun.
    cbv zeta in Hrun. fold p in Hrun, Hb.
    destruct (numpy_report_run (ps_T ps) (ps_lam ps) (ps_n ps) p
                (ps_trials ps) (NumPy.mean (map inject_Z cs))
                (NumPy.var 0 (map inject_Z cs))
                (times (built (ps_n ps) p (ps_T ps) g1))
                (interarrivals (built (ps_n ps) p (ps_T ps) g1))
                (Hrate g1 (Hg1 cs g1 Hb)))
      as [lines [Hl Hshape]].
    rewrite Hrun in E. injection E as <- _.
    exists lines.
    unfold numpy_report_of.
    cbn [NumPy.p NumPy.mean_count NumPy.var_count NumPy.event
         NumPy.mean_ia NumPy.var_ia].
    split; [exact Hl |]. now rewrite Hsame.
Qed.

Lemma X15_report_completes_witness :
  (exists (run : PurePy.Run) (g' : Rng) (lines : list line),
      PurePy.main (fun _ => demo_draws) demo_parameters demo_rng
      = Ok (run, g') /\
      purepy_report_of demo_parameters run = (lines, None) /\
      if truthy (times (PurePy.event run))
      then length lines = 13%nat /\
           last lines []
           = [Text " theoretical Exponential mean = 1/lambda = ";
              Formatted ".6f" (Finite (1 / ps_lam demo_parameters))]
      else length lines = 9%nat /\
           last lines []
           = [Text "No events in the single realization used for interarrival inspection."]) /\
  (exists (run : NumPy.Run) (g' : Rng) (lines : list line),
      NumPy.main (fun _ => demo_draws)
                 (fun n p trials => PurePy.simulate_counts trials n p)
                 demo_parameters demo_rng = Ok (run, g') /\
      numpy_report_of demo_parameters run = (lines, None) /\
      if truthy (times (NumPy.event run))
      then length lines = 17%nat /\
           In [Text " theoretical Exponential mean = 1/lambda = ";
               Formatted ".6f" (Finite (1 / ps_lam demo_parameters))] lines
      else length lines = 11%nat /\
           last lines []
           = [Text "No events in the single realization used for interarrival inspection."]).
Proof.
  assert (H : unit_draws (mkRng demo_draws 0)) by demo_unit_draws.
  assert (H1 : forall (cs : list Z) (g1 : Rng),
             PurePy.simulate_counts 3 6 (3 * 1 / inject_Z 6)%Q
                                    (mkRng demo_draws 0) = Ok (cs, g1) ->
             unit_draws g1).
  { intros cs g1 E. rewrite simulate_counts_run in E.
    injection E as _ <-. apply unit_draws_advance. exact H. }
  destruct (X15_report_completes
              (fun _ => demo_draws)
              (fun n p trials => PurePy.simulate_counts trials n p)
              demo_parameters demo_rng H H1) as [HP HN].
  split.
  - eexists; eexists.
    destruct (HP _ _ ltac:(vm_compute; reflexivity)) as [lines Hl].
    exists lines. split; [vm_compute; reflexivity | exact Hl].
  - eexists; eexists.
    destruct (HN _ _ ltac:(vm_compute; reflexivity)) as [lines Hl].
    exists lines. split; [vm_compute; reflexivity | exact Hl].
Defined.

(** ** The order in which a run reads the seeded draws *)

(** X16. A run of the scalar script that reaches the end has read the seeded
    sequence in a fixed order: count j is the number of values below p
    among the seeded draws numbered j*n, ..., j*n + n - 1, and subinterval
    i is a hit of the realization exactly when seeded draw number
    trials*n + i is below p. *)
Theorem X16_run_draw_order (seeded : Z -> nat -> Q) (ps : ParameterSet)
    (g0 : Rng) (run : PurePy.Run) (g' : Rng) :
  PurePy.main seeded ps g0 = Ok (run, g') ->
  (forall j : nat,
      (j < Z.to_nat (ps_trials ps))%nat ->
      nth_error (PurePy.counts run) j
      = Some (below (PurePy.p run)
                (map (fun i => seeded (ps_seed ps)
                                      (j * Z.to_nat (ps_n ps) + i)%nat)
                     (seq 0 (Z.to_nat (ps_n ps)))))) /\
  (forall i : Z,
      In i (indices (PurePy.event run)) <->
      0 <= i < ps_n ps /\
      (seeded (ps_seed ps)
              (Z.to_nat (ps_trials ps) * Z.to_nat (ps_n ps) + Z.to_nat i)%nat
       < PurePy.p run)%Q).
Proof.
  intros E.
  destruct (purepy_main_inv seeded ps g0 run g' E) as [Hn Htr].
  destruct (purepy_main_run seeded ps g0 Hn Htr)
    as [m [v [s [_ [_ [_ [_ [_ Hrun]]]]]]]].
  rewrite Hrun in E. injection E as <- _.
  cbn [PurePy.counts PurePy.p PurePy.event]. split.
  - intros j Hj. rewrite round_counts_nth by exact Hj. reflexivity.
  - intros i. rewrite built_indices, hits_In. reflexivity.
Qed.

Lemma X16_run_draw_order_witness :
  exists (run : PurePy.Run) (g' : Rng),
    PurePy.main (fun _ => demo_draws) demo_parameters demo_rng
    = Ok (run, g') /\
    (forall j : nat,
        (j < Z.to_nat 3)%nat ->
        nth_error (PurePy.counts run) j
        = Some (below (PurePy.p run)
                  (map (fun i => demo_draws (j * Z.to_nat 6 + i)%nat)
                       (seq 0 (Z.to_nat 6))))) /\
    (forall i : Z,
        In i (indices (PurePy.event run)) <->
        0 <= i < 6 /\
        (demo_draws (Z.to_nat 3 * Z.to_nat 6 + Z.to_nat i)%nat
         < PurePy.p run)%Q).
Proof.
  eexists; eexists. split; [vm_compute; reflexivity |].
  apply (X16_run_draw_order (fun _ => demo_draws) demo_parameters demo_rng
           _ (mkRng demo_draws 27)).
  vm_compute. reflexivity.
Defined.

(** ** A constant sample *)

Lemma fold_right_squares_zero (c m : Q) (xs : list Q) :
  (m == c)%Q -> Forall (fun x => x == c)%Q xs ->
  (fold_right Qplus 0 (map (fun x => (x - m) * (x - m)) xs) == 0)%Q.
Proof.
  intros Hm. induction 1 as [| x xs Hx _ IH]; cbn [map fold_right].
  - reflexivity.
  - rewrite IH, Hx, Hm. ring.
Qed.

Lemma population_constant (c : Q) (xs : list Q) :
  xs <> [] -> Forall (fun x => x == c)%Q xs ->
  (population_mean xs == c)%Q /\ (population_variance xs == 0)%Q.
Proof.
  intros Hne Hall.
  assert (Hm : (population_mean xs == c)%Q).
  { destruct (population_mean_bounds c c xs Hne) as [H1 H2].
    - eapply Forall_impl; [| exact Hall]. cbv beta. intros x Hx.
      rewrite Hx. split; apply Qle_refl.
    - now apply Qle_antisym. }
  split; [exact Hm |].
  unfold population_variance.
  rewrite (fold_right_squares_zero c _ xs Hm Hall).
  unfold Qdiv. apply Qmult_0_l.
Qed.

(** X17. When every count is the same number c (as with p = 0 or p = 1),
    the counts mean both scripts compute is c and the counts variance is
    zero. *)
Theorem X17_constant_sample (c : Z) (counts : list Z) :
  counts <> [] -> Forall (fun x => x = c) counts ->
  (exists m v : Q,
      PurePy.mean_of_counts counts = Ok m /\
      PurePy.var_of_counts counts m = Ok v /\
      (m == inject_Z c)%Q /\ (v == 0)%Q) /\
  (exists m v : Q,
      NumPy.mean (map inject_Z counts) = Finite m /\
      NumPy.var 0 (map inject_Z counts) = Finite v /\
      (m == inject_Z c)%Q /\ (v == 0)%Q).
Proof.
  intros Hne Hall.
  assert (Hne' : map inject_Z counts <> [])
    by (destruct counts; [contradiction | discriminate]).
  assert (Hall' : Forall (fun x => x == inject_Z c)%Q (map inject_Z counts)).
  { apply Forall_map. eapply Forall_impl; [| exact Hall].
    cbv beta. intros x ->. reflexivity. }
  destruct (population_constant (inject_Z c) _ Hne' Hall') as [Hm Hv].
  split.
  - destruct (purepy_count_stats counts Hne) as [m [v [H1 [H2 [Em Ev]]]]].
    exists m, v. split; [exact H1 |]. split; [exact H2 |].
    split; [now rewrite Em | now rewrite Ev].
  - destruct (numpy_stats _ Hne') as [m [v [H1 [H2 [Em Ev]]]]].
    exists m, v. split; [exact H1 |]. split; [exact H2 |].
    split; [now rewrite Em | now rewrite Ev].
Qed.

Lemma X17_constant_sample_witness :
  (exists m v : Q,
      PurePy.mean_of_counts [4; 4; 4] = Ok m /\
      PurePy.var_of_counts [4; 4; 4] m = Ok v /\
      (m == inject_Z 4)%Q /\ (v == 0)%Q) /\
  (exists m v : Q,
      NumPy.mean (map inject_Z [4; 4; 4]) = Finite m /\
      NumPy.var 0 (map inject_Z [4; 4; 4]) = Finite v /\
      (m == inject_Z 4)%Q /\ (v == 0)%Q).
Proof.
  apply (X17_constant_sample 4 [4; 4; 4]).
  - discriminate.
  - repeat constructor.
Defined.

(** ** What the sort guarantees on its own *)

Lemma insert_sorted_head (x : Q) (l : list Q) (y : Q) :
  (y <= x)%Q -> HdRel Qle y l -> HdRel Qle y (insert_sorted x l).
Proof.
  intros Hyx Hl. destruct l as [| z l]; cbn [insert_sorted].
  - now constructor.
  - destruct (Qle_bool x z); constructor; [exact Hyx |].
    now inversion Hl.
Qed.

Lemma insert_sorted_Sorted (x : Q) (l : list Q) :
  Sorted Qle l -> Sorted Qle (insert_sorted x l).
Proof.
  induction 1 as [| y l Hs IH Hhd]; cbn [insert_sorted].
  - repeat constructor.
  - destruct (Qle_bool x y) eqn:E.
    + apply Qle_bool_iff in E. repeat constructor; assumption.
    + assert (Hyx : (y <= x)%Q).
      { apply Qlt_le_weak, Qnot_le_lt. intros H.
        apply Qle_bool_iff in H. rewrite H in E. discriminate E. }
      constructor; [exact IH | now apply insert_sorted_head].
Qed.

Lemma sort_Sorted (l : list Q) : Sorted Qle (sort l).
Proof.
  induction l as [| x l IH]; cbn [sort]; [constructor |].
  now apply insert_sorted_Sorted.
Qed.

Lemma diff_Sorted (l : list Q) :
  forall x : Q,
    Sorted Qle (x :: l) -> Forall (fun d => 0 <= d)%Q (NumPy.diff (x :: l)).
Proof.
  induction l as [| y l IH]; intros x Hs; [constructor |].
  change (NumPy.diff (x :: y :: l))
    with ((y - x)%Q :: NumPy.diff (y :: l)).
  inversion Hs as [| ? ? Hs' Hhd]; subst. inversion Hhd; subst.
  constructor; [lra | now apply IH].
Qed.

(** X18. The order of the Realization does not rest on the parameters being
    valid: whatever the draws, p and T (also T <= 0, where the raw times
    come out in decreasing order), the times either script stores are in
    non-decreasing order and every gap after the first is non-negative. *)
Theorem X18_sorted_whatever (n : Z) (p T : Q) (g : Rng) :
  0 <= n ->
  exists r : Realization,
    both_return n p T g r /\
    Sorted Qle (times r) /\
    Forall (fun d => 0 <= d)%Q (tl (interarrivals r)).
Proof.
  intros Hn. exists (built n p T g).
  split; [now apply both_return_built |].
  unfold built. destruct (truthy (hits n p g)); cbn [times interarrivals];
    [| split; constructor].
  pose proof (sort_Sorted (raw_times n p T g)) as Hs.
  split; [exact Hs |].
  destruct (sort (raw_times n p T g)) as [| t0 ts]; [constructor |].
  cbn [app]. change (NumPy.diff (0%Q :: t0 :: ts))
    with ((t0 - 0)%Q :: NumPy.diff (t0 :: ts)).
  cbn [tl]. now apply diff_Sorted.
Qed.

Lemma X18_sorted_whatever_witness :
  exists r : Realization,
    both_return 6 (1 # 2) (-1) demo_rng r /\
    Sorted Qle (times r) /\
    Forall (fun d => 0 <= d)%Q (tl (interarrivals r)).
Proof. apply (X18_sorted_whatever 6 (1 # 2) (-1) demo_rng). lia. Defined.

(** ** The boundary thresholds *)

(** X19. For draws in [0, 1): at p = 0 every count of the scalar sampler is
    zero, no subinterval is a hit and the Realization of either script is
    empty; at p = 1 every count is n, every subinterval 0, ..., n - 1 is a
    hit and the Realization of either script has exactly n timestamps and
    n gaps. *)
Theorem X19_boundary_thresholds (n trials : Z) (p0 p1 T : Q) (g : Rng) :
  unit_draws g -> 1 <= n -> 0 <= trials ->
  (p0 == 0)%Q -> (p1 == 1)%Q ->
  ((exists (counts : list Z) (g' : Rng),
       PurePy.simulate_counts trials n p0 g = Ok (counts, g') /\
       len counts = trials /\ Forall (fun c => c = 0) counts) /\
   (exists r : Realization,
       both_return n p0 T g r /\
       indices r = [] /\ times r = [] /\ interarrivals r = [])) /\
  ((exists (counts : list Z) (g' : Rng),
       PurePy.simulate_counts trials n p1 g = Ok (counts, g') /\
       len counts = trials /\ Forall (fun c => c = n) counts) /\
   (exists r : Realization,
       both_return n p1 T g r /\
       indices r = map Z.of_nat (seq 0 (Z.to_nat n)) /\
       len (times r) = n /\ len (interarrivals r) = n)).
Proof.
  intros Hg Hn Htr Hp0 Hp1.
  assert (Hlen : forall p, len (round_counts (Z.to_nat trials) (Z.to_nat n) p g)
                           = trials)
    by (intros; unfold len; rewrite round_counts_length; lia).
  split; split.
  - eexists; eexists. split; [apply simulate_counts_run |].
    split; [apply Hlen | now apply round_counts_zero].
  - exists (built n p0 T g). split; [apply both_return_built; lia |].
    unfold built. now rewrite (hits_none n p0 g Hg Hp0).
  - eexists; eexists. split; [apply simulate_counts_run |].
    split; [apply Hlen |].
    eapply Forall_impl; [| now apply round_counts_full].
    intros c ->. lia.
  - exists (built n p1 T g). split; [apply both_return_built; lia |].
    destruct (built_lengths n p1 T g) as [Ht Hi].
    rewrite built_indices. unfold len. rewrite Ht, Hi.
    rewrite (hits_all n p1 g Hg Hp1), length_map, length_seq.
    split; [reflexivity | lia].
Qed.

Lemma X19_boundary_thresholds_witness :
  ((exists (counts : list Z) (g' : Rng),
       PurePy.simulate_counts 3 4 (0 # 5) demo_rng = Ok (counts, g') /\
       len counts = 3 /\ Forall (fun c => c = 0) counts) /\
   (exists r : Realization,
       both_return 4 (0 # 5) 1 demo_rng r /\
       indices r = [] /\ times r = [] /\ interarrivals r = [])) /\
  ((exists (counts : list Z) (g' : Rng),
       PurePy.simulate_counts 3 4 (4 # 4) demo_rng = Ok (counts, g') /\
       len counts = 3 /\ Forall (fun c => c = 4) counts) /\
   (exists r : Realization,
       both_return 4 (4 # 4) 1 demo_rng r /\
       indices r = map Z.of_nat (seq 0 (Z.to_nat 4)) /\
       len (times r) = 4 /\ len (interarrivals r) = 4)).
Proof.
  apply (X19_boundary_thresholds 4 3 (0 # 5) (4 # 4) 1 demo_rng).
  - demo_unit_draws.
  - lia.
  - lia.
  - reflexivity.
  - reflexivity.
Defined.

(** ** Failure modes in binary64 *)

(** Two more ways for the scalar script to stop, both with an OverflowError:
    an n that does not fit a float, at p = lam * T / n; and gaps whose
    squared deviation leaves the float range, at the interarrival variance
    (here T = 2^703, lambda = 2^-702, n = 2, one trial, every draw 0.5: the
    counts statistics are computed, the timestamps are 2^701 and
    1.5 * 2^702).  On the configuration T = 1, lambda = 3, n = 6, three
    trials and every draw 0.25, the same lines run to the end. *)
Lemma binary64_run_stops :
  F64.main 1 3.5 (10 ^ 400) 1 (F64.delivering []) = Raise OverflowError /\
  F64.main 0x1p703 0x1p-702 2 1 (F64.delivering []) = Raise OverflowError /\
  (exists (r : F64.Realization) (g' : F64.Rng),
      F64.realization 2 1 0x1p703 (F64.mkRng (fun _ => 0.5%float) 2)
      = Ok (r, g') /\
      F64.times r = [0x1p701; 0x1.8p702]%float /\
      F64.mean_of_counts [2] = Ok 2%float /\
      F64.var_of_counts [2] 2 = Ok 0%float /\
      F64.interarrival_stats (F64.interarrivals r) = Raise OverflowError) /\
  (exists (run : F64.Run) (g' : F64.Rng),
      F64.main 1 3 6 3 (F64.mkRng (fun _ => 0.25%float) 0) = Ok (run, g') /\
      F64.counts run = [6; 6; 6] /\
      F64.mean_count run = 6%float /\ F64.var_count run = 0%float /\
      length (F64.times (F64.event run)) = 6%nat /\
      F64.mean_ia run <> None /\ F64.var_ia run <> None).
Proof.
  split; [vm_compute; reflexivity |].
  split; [vm_compute; reflexivity |].
  split.
  - eexists; eexists. split; [vm_compute; reflexivity |].
    repeat split; vm_compute; reflexivity.
  - eexists; eexists. split; [vm_compute; reflexivity |].
    repeat split; try (vm_compute; reflexivity); vm_compute; discriminate.
Qed.
